(** * cx_Freeze: the CI requirement installer and the version-info record

  A shallow embedding of [ci/build_test.py] (the functions
  [is_supported_platform], [is_supported_python] and
  [install_requirements], and the loop of [cx_freeze_status] over the lines
  it has read) and of [cx_Freeze/winversioninfo.py]
  ([VersionInfo.__init__]), with the properties of their specification.

  Conventions of the embedding.
  - A Python [str] is a [string], a sequence of ASCII characters; the
    case operations treat the letters [A-Z] and [a-z] as the cased
    characters.
  - A Python [set] of strings is a [gset string]; a [dict] from strings to
    strings is a [gmap string string].
  - Dictionaries are objects: they live in a heap and are named by their
    location, so that [os.environ.copy()] and the item assignments that
    follow it are visible as such.
  - Every [subprocess.run] is recorded in a trace with the arguments and
    the environment it was given; what the child process answers is read
    from the execution context.  The calls into [packaging] and [json] are
    functions of the context as well, taken at their normal return.
  - A computation returns a value or raises; the one exception of the code
    itself is the [IndexError] of [extra[-1]] on an empty index URL.  What
    is stated of a raise is stated where [packaging] is absent, so that no
    call into it comes before.
  - What the code prints is left out. *)

From Stdlib Require Import ZArith Ascii String List Lia.
From stdpp Require Import base strings gmap list.
From Equations Require Import Equations.

Local Open Scope string_scope.
Local Open Scope list_scope.

(** * Python string operations *)

Module PyStr.

(** [s.split(sep)] for a separator of one character. *)
Fixpoint split (sep : ascii) (s : string) : list string :=
  match s with
  | EmptyString => [EmptyString]
  | String c s' =>
      if Ascii.eqb c sep then EmptyString :: split sep s'
      else match split sep s' with
           | [] => [String c EmptyString]
           | w :: ws => String c w :: ws
           end
  end.

(** [sep.join(parts)]. *)
Fixpoint join (sep : string) (parts : list string) : string :=
  match parts with
  | [] => EmptyString
  | w :: ws =>
      match ws with
      | [] => w
      | _ :: _ => w ++ sep ++ join sep ws
      end
  end.

(** [c in s] for a character [c]. *)
Fixpoint has_char (c : ascii) (s : string) : bool :=
  match s with
  | EmptyString => false
  | String a s' => Ascii.eqb a c || has_char c s'
  end.

(** [s.startswith(p)]. *)
Fixpoint startswith (p s : string) : bool :=
  match p, s with
  | EmptyString, _ => true
  | String a p', String b s' => Ascii.eqb a b && startswith p' s'
  | String _ _, EmptyString => false
  end.

(** [s[n:]]. *)
Fixpoint drop (n : nat) (s : string) : string :=
  match n, s with
  | O, _ => s
  | S n', String _ s' => drop n' s'
  | S _, EmptyString => EmptyString
  end.

(** [s[:-1]]. *)
Fixpoint init (s : string) : string :=
  match s with
  | EmptyString => EmptyString
  | String c s' =>
      match s' with
      | EmptyString => EmptyString
      | String _ _ => String c (init s')
      end
  end.

(** [s[-1]]; there is no last character in the empty string. *)
Fixpoint last (s : string) : option ascii :=
  match s with
  | EmptyString => None
  | String c s' =>
      match s' with
      | EmptyString => Some c
      | String _ _ => last s'
      end
  end.

(** [needle in hay] for strings. *)
Fixpoint contains (needle hay : string) : bool :=
  startswith needle hay ||
  match hay with
  | EmptyString => false
  | String _ hay' => contains needle hay'
  end.

Definition is_upper (c : ascii) : bool :=
  let n := nat_of_ascii c in (65 <=? n)%nat && (n <=? 90)%nat.

Definition is_lower (c : ascii) : bool :=
  let n := nat_of_ascii c in (97 <=? n)%nat && (n <=? 122)%nat.

Definition is_digit (c : ascii) : bool :=
  let n := nat_of_ascii c in (48 <=? n)%nat && (n <=? 57)%nat.

Definition lower_char (c : ascii) : ascii :=
  if is_upper c then ascii_of_nat (nat_of_ascii c + 32) else c.

(** [s.lower()]. *)
Fixpoint lower (s : string) : string :=
  match s with
  | EmptyString => EmptyString
  | String c s' => String (lower_char c) (lower s')
  end.

Fixpoint any_char (p : ascii -> bool) (s : string) : bool :=
  match s with
  | EmptyString => false
  | String c s' => p c || any_char p s'
  end.

(** [s.islower()]: no upper-case character and at least one lower-case
    one. *)
Definition islower (s : string) : bool :=
  negb (any_char is_upper s) && any_char is_lower s.

(** [s.replace(a, b)] for characters [a] and [b]. *)
Fixpoint replace_char (a b : ascii) (s : string) : string :=
  match s with
  | EmptyString => EmptyString
  | String c s' =>
      String (if Ascii.eqb c a then b else c) (replace_char a b s')
  end.

(** [s.replace(a, "")] for a character [a]. *)
Fixpoint remove_char (a : ascii) (s : string) : string :=
  match s with
  | EmptyString => EmptyString
  | String c s' =>
      if Ascii.eqb c a then remove_char a s' else String c (remove_char a s')
  end.

(** The longest prefix of [s] made of digits. *)
Fixpoint take_digits (s : string) : string :=
  match s with
  | EmptyString => EmptyString
  | String c s' => if is_digit c then String c (take_digits s') else EmptyString
  end.

(** Python truth value of a string. *)
Definition truthy (s : string) : bool :=
  match s with
  | EmptyString => false
  | String _ _ => true
  end.

End PyStr.

(** * [cx_Freeze/winversioninfo.py] *)

Module WinVersionInfo.

Record VersionInfo : Type := mkVersionInfo {
  version : string;
  internal_name : option string;
  original_filename : option string;
  comments : option string;
  company : option string;
  description : option string;
  copyright : option string;
  trademarks : option string;
  product : option string;
  dll : option bool;
  debug : option bool;
  verbose : bool
}.

(** [while len(parts) < 4: parts.append("0")]. *)
Equations pad_parts (parts : list string) : list string
  by wf (4 - length parts) lt :=
  pad_parts parts with lt_dec (length parts) 4 := {
    | left _ => pad_parts (parts ++ ["0"]);
    | right _ => parts
  }.
Next Obligation. rewrite length_app; simpl; lia. Qed.

(** [VersionInfo.__init__]. *)
Definition __init__ (version : string)
    (internal_name original_filename comments company description
     copyright trademarks product : option string)
    (dll debug : option bool) (verbose : bool) : VersionInfo :=
  let parts := PyStr.split "." version in
  let parts := pad_parts parts in
  {| version := PyStr.join "." parts;
     internal_name := internal_name;
     original_filename := original_filename;
     comments := comments;
     company := company;
     description := description;
     copyright := copyright;
     trademarks := trademarks;
     product := product;
     dll := dll;
     debug := debug;
     verbose := verbose |}.

End WinVersionInfo.

(** * [ci/build_test.py] *)

Module BuildTest.

(** ** The interpreter and the process the module is imported in *)

Record Platform : Type := mkPlatform {
  get_platform : string;          (* sysconfig.get_platform() *)
  releaselevel : string;          (* sys.version_info.releaselevel *)
  py_version : string;            (* get_config_var("py_version") *)
  py_version_nodot : string;      (* get_config_var("py_version_nodot") *)
  sys_prefix : string;
  sys_executable : string;
  conda_meta_is_dir : bool;       (* Path(sys.prefix, "conda-meta").is_dir() *)
  which_uv : option string;       (* which("uv") *)
  startup_environ : gmap string string  (* os.environ when the module loads *)
}.

(** [packaging.requirements.Requirement], or the class that stands in for
    it: an object with a [name] and a string form. *)
Record Requirement : Type := mkRequirement {
  name : string;
  __str__ : string
}.

Record CompletedProcess : Type := mkCompletedProcess {
  returncode : Z;
  stdout : string
}.

(** One [subprocess.run]: the command line, and the content of the [env]
    dictionary at the time of the call when one was passed. *)
Record invocation : Type := mkInvocation {
  inv_args : list string;
  inv_env : option (gmap string string)
}.

(** What lies outside the module: the optional [packaging] package, the
    JSON that [conda search] prints (the [build] and [url] of the files
    listed under a package name, in order), the child processes, and the
    order in which a [set] is iterated. *)
Record World : Type := mkWorld {
  packaging_requirements : option (string -> Requirement);
  packaging_specifiers : option (string -> string -> bool);
  conda_search_files : string -> string -> list (string * string);
  subprocess_result : list invocation -> invocation -> CompletedProcess;
  set_iter : gset string -> list string;
  set_iter_perm : forall X : gset string, set_iter X ≡ₚ elements X
}.

(** ** Module constants *)

Section Constants.

Context (P : Platform).

Definition PLATFORM : string := get_platform P.
Definition IS_LINUX : bool := PyStr.startswith "linux" PLATFORM.
Definition IS_MACOS : bool := PyStr.startswith "macos" PLATFORM.
Definition IS_MINGW : bool := PyStr.startswith "mingw" PLATFORM.
Definition IS_WINDOWS : bool := PyStr.startswith "win" PLATFORM.
Definition IS_FINAL_VERSION : bool := String.eqb (releaselevel P) "final".
Definition PYTHON_VERSION : string := py_version P.

Definition IS_CONDA : bool := conda_meta_is_dir P.
Definition CONDA_EXE : string :=
  default "conda" (startup_environ P !! "CONDA_EXE").
Definition MINGW_PACKAGE_PREFIX : string :=
  default "" (startup_environ P !! "MINGW_PACKAGE_PREFIX").
Definition UV : option string := which_uv P.

Definition PIP_COMMAND : list string :=
  match UV with
  | Some uv =>
      if PyStr.truthy uv
         && negb (PyStr.truthy (default "" (startup_environ P !! "WINEPREFIX")))
      then [uv; "pip"]
      else [sys_executable P; "-m"; "pip"]
  | None => [sys_executable P; "-m"; "pip"]
  end.

(** [os.environ.get("PIP_UPGRADE", False)]: the string when the variable is
    set, [None] for [False]. *)
Definition PIP_UPGRADE : option string := startup_environ P !! "PIP_UPGRADE".

(** The truth value of [PIP_UPGRADE]. *)
Definition PIP_UPGRADE_truthy : bool :=
  match PIP_UPGRADE with
  | Some v => PyStr.truthy v
  | None => false
  end.

(** [RE_CONDA_BUILD_PYVER.search(build)]: the pattern is the letters [py],
    then digits (group 2), then white space; the result is group 2 of the
    leftmost match, when there is one. *)
Fixpoint RE_CONDA_BUILD_PYVER_search (build : string) : option string :=
  if PyStr.startswith "py" build then Some (PyStr.take_digits (PyStr.drop 2 build))
  else match build with
       | EmptyString => None
       | String _ rest => RE_CONDA_BUILD_PYVER_search rest
       end.

(** ** [is_supported_platform] *)

(** Python truth value of a set: it is not empty. *)
Definition set_truthy (X : gset string) : bool := negb (bool_decide (X = ∅)).

Inductive platform_arg : Type :=
  | PlatformNone
  | PlatformStr (s : string)
  | PlatformList (l : list string).

Definition is_supported_platform
    (platform : platform_arg) (platform_in_use : option string) : bool :=
  let platform : option (list string) :=
    match platform with
    | PlatformStr s => Some (PyStr.split "," s)
    | PlatformList l => Some l
    | PlatformNone => None
    end in
  match platform with
  | None => true
  | Some [] => true
  | Some platform =>
      let platform_in_use :=
        match platform_in_use with
        | Some p => p
        | None =>
            if IS_MACOS then "macos"
            else if IS_MINGW then "mingw"
            else if IS_WINDOWS then "windows"
            else "linux"
        end in
      let platform_support : gset string :=
        {[ "linux"; "macos"; "mingw"; "windows" ]} in
      let platform_yes : gset string :=
        list_to_set
          (List.filter (fun plat => negb (PyStr.startswith "!" plat)) platform) in
      let platform_support :=
        if set_truthy platform_yes then platform_yes else platform_support in
      let platform_not : gset string :=
        list_to_set
          (List.map (PyStr.drop 1)
             (List.filter (fun plat => PyStr.startswith "!" plat) platform)) in
      let platform_support :=
        if set_truthy platform_not then platform_support ∖ platform_not
        else platform_support in
      bool_decide (platform_in_use ∈ platform_support)
  end.

(** ** [is_supported_python] *)

Definition quote_single : ascii := ascii_of_nat 39.
Definition quote_double : ascii := ascii_of_nat 34.

Definition is_supported_python (W : World) (python_version : string) : bool :=
  match packaging_specifiers W with
  | None => true
  | Some specifier_contains =>
      let python_version :=
        PyStr.remove_char quote_double
          (PyStr.remove_char quote_single python_version) in
      specifier_contains python_version PYTHON_VERSION
  end.

(** ** The state of a call *)

(** A dictionary object is named by its location: [os.environ], or an
    object allocated since. *)
Inductive loc : Type :=
  | Environ
  | Obj (n : nat).

(** The process ([os.environ], the dictionaries allocated so far, the child
    processes run so far) and the three lists that [install_requirements]
    fills. *)
Record state : Type := mkState {
  os_environ : gmap string string;
  heap : list (gmap string string);
  trace : list invocation;
  installed_packages : list string;
  conda_pkgs : list string;
  pip_pkgs : list string
}.

Inductive exn : Type :=
  | IndexError.

(** Computations that read and update the state and return or raise. *)
Definition M (A : Type) : Type := state -> (exn + A) * state.

#[global] Instance M_ret : MRet M := fun A x s => (inr x, s).

#[global] Instance M_bind : MBind M := fun A B f m s =>
  match m s with
  | (inr x, s') => f x s'
  | (inl e, s') => (inl e, s')
  end.

Definition raise {A : Type} (e : exn) : M A := fun s => (inl e, s).

Definition deref (s : state) (l : loc) : gmap string string :=
  match l with
  | Environ => os_environ s
  | Obj n => default ∅ (heap s !! n)
  end.

(** [os.environ.copy()]: a new dictionary with the content of
    [os.environ]. *)
Definition environ_copy : M loc := fun s =>
  (inr (Obj (length (heap s))),
   mkState (os_environ s) (heap s ++ [os_environ s]) (trace s)
           (installed_packages s) (conda_pkgs s) (pip_pkgs s)).

(** [d[k] = v] on the dictionary at [l]. *)
Definition dict_set (l : loc) (k v : string) : M unit := fun s =>
  (inr tt,
   match l with
   | Environ =>
       mkState (<[k := v]> (os_environ s)) (heap s) (trace s)
               (installed_packages s) (conda_pkgs s) (pip_pkgs s)
   | Obj n =>
       mkState (os_environ s) (<[n := <[k := v]> (deref s l)]> (heap s))
               (trace s) (installed_packages s) (conda_pkgs s) (pip_pkgs s)
   end).

(** [installed_packages.extend(l)]. *)
Definition installed_extend (l : list string) : M unit := fun s =>
  (inr tt,
   mkState (os_environ s) (heap s) (trace s)
           (installed_packages s ++ l) (conda_pkgs s) (pip_pkgs s)).

(** [conda_pkgs.append(p)]. *)
Definition conda_pkgs_append (p : string) : M unit := fun s =>
  (inr tt,
   mkState (os_environ s) (heap s) (trace s)
           (installed_packages s) (conda_pkgs s ++ [p]) (pip_pkgs s)).

(** [pip_pkgs.append(p)]. *)
Definition pip_pkgs_append (p : string) : M unit := fun s =>
  (inr tt,
   mkState (os_environ s) (heap s) (trace s)
           (installed_packages s) (conda_pkgs s) (pip_pkgs s ++ [p])).

Definition get_state : M state := fun s => (inr s, s).

(** [subprocess.run(args, check=False)], with [env=env] when a dictionary is
    given: the call is appended to the trace, the answer is the world's. *)
Definition subprocess_run (W : World)
    (args : list string) (env : option loc) : M CompletedProcess := fun s =>
  let inv := mkInvocation args (deref s <$> env) in
  (inr (subprocess_result W (trace s) inv),
   mkState (os_environ s) (heap s) (trace s ++ [inv])
           (installed_packages s) (conda_pkgs s) (pip_pkgs s)).

(** [for x in l: body(x)]. *)
Fixpoint for_ {A : Type} (l : list A) (body : A -> M unit) : M unit :=
  match l with
  | [] => mret tt
  | x :: l' => body x ;; for_ l' body
  end.

End Constants.

(** ** [install_requirements] *)

(** The local variables that the scan of one requirement line sets. *)
Record directive : Type := mkDirective {
  alias_for_conda : option string;
  alias_for_mingw : option string;
  no_deps : bool;
  platform : option string;
  python_version : option string;
  only_binary : bool;
  pre_release : bool;
  prefer_binary : bool;
  require : option Requirement;
  upgrade : bool
}.

(** The argument [requires]: a string, a list or a set. *)
Inductive requires_arg : Type :=
  | RequiresStr (s : string)
  | RequiresList (l : list string)
  | RequiresSet (X : gset string).

(** [s.split(sep, 1)]. *)
Fixpoint split_once (sep : ascii) (s : string) : list string :=
  match s with
  | EmptyString => [EmptyString]
  | String c s' =>
      if Ascii.eqb c sep then [EmptyString; s']
      else match split_once sep s' with
           | [] => [String c EmptyString]
           | w :: ws => String c w :: ws
           end
  end.

(** Python truth value of a list. *)
Definition list_truthy {A : Type} (l : list A) : bool :=
  match l with
  | [] => false
  | _ :: _ => true
  end.

Section InstallRequirements.

Context (P : Platform) (W : World).
Context (extra_index_url find_links : option (list string)).

(** Python truth value of an optional list: neither [None] nor empty. *)
Definition opt_truthy (o : option (list string)) : bool :=
  list_truthy (default [] o).

(** The class [Requirement] of the call: the one of [packaging] when the
    package can be imported, else the local class whose [name] and string
    form are the requirement text. *)
Definition Requirement_class (req : string) : Requirement :=
  match packaging_requirements W with
  | None => mkRequirement req req
  | Some packaging_Requirement => packaging_Requirement req
  end.

Definition pip_install : list string := PIP_COMMAND P ++ ["install"].
Definition pacman_args : list string :=
  ["pacman"; "--noconfirm"; "--needed"; "-S"].
Definition pacman_search : list string := ["pacman"; "--noconfirm"; "-Ss"].
Definition conda_install : list string :=
  [CONDA_EXE P; "install"; "--prefix"; sys_prefix P; "-y"; "-q"]
  ++ ["--no-channel-priority"; "-S"].
Definition conda_search : list string :=
  [CONDA_EXE P; "search"; "--override-channels"].

(** The values of the local variables at the top of the loop body. *)
Definition directive_init : directive :=
  mkDirective None None false None None false false false None
              (PIP_UPGRADE_truthy P).

(** One turn of [for req_data in req.split(" ")]. *)
Definition parse_token (d : directive) (req_data : string) : directive :=
  if PyStr.startswith "--conda=" req_data then
    mkDirective (Some (nth 1 (split_once "=" req_data) ""))
      (alias_for_mingw d) (no_deps d) (platform d) (python_version d)
      (only_binary d) (pre_release d) (prefer_binary d) (require d) (upgrade d)
  else if PyStr.startswith "--mingw=" req_data then
    mkDirective (alias_for_conda d)
      (Some (nth 1 (split_once "=" req_data) ""))
      (no_deps d) (platform d) (python_version d)
      (only_binary d) (pre_release d) (prefer_binary d) (require d) (upgrade d)
  else if String.eqb req_data "--no-deps" then
    mkDirective (alias_for_conda d) (alias_for_mingw d) true
      (platform d) (python_version d)
      (only_binary d) (pre_release d) (prefer_binary d) (require d) (upgrade d)
  else if PyStr.startswith "--platform=" req_data then
    mkDirective (alias_for_conda d) (alias_for_mingw d) (no_deps d)
      (Some (nth 1 (PyStr.split "=" req_data) "")) (python_version d)
      (only_binary d) (pre_release d) (prefer_binary d) (require d) (upgrade d)
  else if PyStr.startswith "--python-version" req_data then
    mkDirective (alias_for_conda d) (alias_for_mingw d) (no_deps d)
      (platform d)
      (Some (PyStr.drop (String.length "--python-version") req_data))
      (only_binary d) (pre_release d) (prefer_binary d) (require d) (upgrade d)
  else if String.eqb req_data "--only-binary" then
    mkDirective (alias_for_conda d) (alias_for_mingw d) (no_deps d)
      (platform d) (python_version d)
      true (pre_release d) (prefer_binary d) (require d) (upgrade d)
  else if String.eqb req_data "--pre" then
    mkDirective (alias_for_conda d) (alias_for_mingw d) (no_deps d)
      (platform d) (python_version d)
      (only_binary d) true (prefer_binary d) (require d) (upgrade d)
  else if String.eqb req_data "--prefer-binary" then
    mkDirective (alias_for_conda d) (alias_for_mingw d) (no_deps d)
      (platform d) (python_version d)
      (only_binary d) (pre_release d) true (require d) (upgrade d)
  else if String.eqb req_data "--upgrade" then
    mkDirective (alias_for_conda d) (alias_for_mingw d) (no_deps d)
      (platform d) (python_version d)
      (only_binary d) (pre_release d) (prefer_binary d) (require d) true
  else if PyStr.truthy req_data then
    mkDirective (alias_for_conda d) (alias_for_mingw d) (no_deps d)
      (platform d) (python_version d)
      (only_binary d) (pre_release d) (prefer_binary d)
      (Some (Requirement_class req_data)) (upgrade d)
  else d.

(** The scan of one requirement line. *)
Definition parse_req (req : string) : directive :=
  fold_left parse_token (PyStr.split " " req) directive_init.

(** *** The Conda backend *)

(** [for file in output[require.name]], up to its [break]. *)
Fixpoint conda_pick (pyver : string) (files : list (string * string))
    (args : list string) : list string :=
  match files with
  | [] => args
  | (build, url) :: rest =>
      match RE_CONDA_BUILD_PYVER_search build with
      | Some group2 =>
          if String.eqb group2 pyver then [url]
          else conda_pick pyver rest args
      | None => conda_pick pyver rest args
      end
  end.

(** [for extra in extra_index_url], with [args] as it stands. *)
Fixpoint conda_lookup (r : Requirement) (extras : list string)
    (args : list string) : M (list string) :=
  match extras with
  | [] => mret args
  | extra :: rest =>
      c ← match PyStr.last extra with
          | Some c => mret c
          | None => raise IndexError
          end;
      let packages_url :=
        if Ascii.eqb c "/" then PyStr.init extra else extra in
      let args2 := ["-c"; (packages_url ++ "/conda")%string; name r; "--json"] in
      process ← subprocess_run W (conda_search ++ args2) None;
      let args :=
        if (returncode process =? 0)%Z then
          conda_pick (py_version_nodot P)
            (conda_search_files W (stdout process) (name r)) args
        else args in
      conda_lookup r rest args
  end.

Definition conda_stage (r : Requirement) : M unit :=
  args ← (if opt_truthy extra_index_url
          then conda_lookup r (default [] extra_index_url) []
          else mret []);
  if list_truthy args then
    process ← subprocess_run W (conda_install ++ args) None;
    if (returncode process =? 0)%Z then installed_extend args else mret tt
  else conda_pkgs_append (__str__ r).

(** *** The MSYS2 backend *)

(** The list of possible names of a package. *)
Definition mingw_packages (package : string) : list string :=
  let packages := [("python-" ++ package)%string; package] in
  let packages :=
    if negb (PyStr.islower package)
    then packages ++ List.map PyStr.lower packages
    else packages in
  if PyStr.has_char "_" package then
    packages ++ List.map (PyStr.replace_char "_" "-") packages
  else if PyStr.has_char "-" package then
    packages ++ List.map (PyStr.replace_char "-" "_") packages
  else packages.

(** [for package_name in packages]; the result is [installed]. *)
Fixpoint mingw_try (packages : list string) : M bool :=
  match packages with
  | [] => mret false
  | package_name :: rest =>
      let package := (MINGW_PACKAGE_PREFIX P ++ "-" ++ package_name)%string in
      process ← subprocess_run W (pacman_search ++ [package]) None;
      if (returncode process =? 1)%Z then mingw_try rest
      else if (returncode process =? 0)%Z
              && PyStr.contains "installed" (stdout process) then
        installed_extend [package];; mret true
      else
        process ← subprocess_run W (pacman_args ++ [package]) None;
        if (returncode process =? 0)%Z then
          installed_extend [package];; mret true
        else mingw_try rest
  end.

(** The block under [if IS_MINGW].  [None]: the loop body is left with
    [continue]; [Some r]: control goes on to the pip block with [require]
    bound to [r]. *)
Definition mingw_stage (d : directive) : M (option Requirement) :=
  let try (r : Requirement) : M (option Requirement) :=
    installed ← mingw_try (mingw_packages (name r));
    if installed : bool then mret None else mret (Some r) in
  match alias_for_mingw d with
  | Some alias =>
      if String.eqb alias "" then mret None
      else try (Requirement_class alias)
  | None =>
      match require d with
      | None => mret None
      | Some r => try r
      end
  end.

(** *** The pip backend *)

Definition pip_stage (d : directive) (r : Requirement) : M unit :=
  let args : list string := [] in
  env ← environ_copy;
  dict_set env "UV_PYTHON" (sys_executable P);;
  let args := if no_deps d then args ++ ["--no-deps"] else args in
  let args :=
    if only_binary d then args ++ [("--only-binary=" ++ name r)%string] else args in
  (if pre_release d then
     dict_set env "PIP_PRE" "1";;
     dict_set env "UV_PRERELEASE" "explicit"
   else mret tt);;
  let args := if prefer_binary d then args ++ ["--prefer-binary"] else args in
  let args := if upgrade d then args ++ ["--upgrade"] else args in
  if list_truthy args then
    let args :=
      if opt_truthy extra_index_url then
        args ++ List.map (fun url => ("--extra-index-url=" ++ url)%string)
                  (default [] extra_index_url)
      else args in
    let args :=
      if opt_truthy find_links then
        args ++ List.map (fun link => ("--find-links=" ++ link)%string)
                  (default [] find_links)
      else args in
    let args := pip_install ++ args ++ [__str__ r] in
    process ← subprocess_run W args (Some env);
    if (returncode process =? 0)%Z then installed_extend [name r]
    else if negb (IS_FINAL_VERSION P) && negb (pre_release d) then
      dict_set env "PIP_PRE" "1";;
      dict_set env "UV_PRERELEASE" "allow";;
      process ← subprocess_run W args (Some env);
      if (returncode process =? 0)%Z then installed_extend [name r]
      else mret tt
    else mret tt
  else pip_pkgs_append (__str__ r).

(** *** The loop body and the call *)

Definition platform_of (d : directive) : platform_arg :=
  match platform d with
  | Some s => PlatformStr s
  | None => PlatformNone
  end.

(** The body of [for req in requires]. *)
Definition process_req (req : string) : M unit :=
  let d := parse_req req in
  if negb (is_supported_platform P (platform_of d) None) then mret tt
  else if match python_version d with
          | Some v => PyStr.truthy v && negb (is_supported_python P W v)
          | None => false
          end then mret tt
  else if IS_CONDA P then
    match alias_for_conda d with
    | Some alias =>
        if String.eqb alias "" then mret tt
        else conda_stage (Requirement_class alias)
    | None =>
        match require d with
        | None => mret tt
        | Some r => conda_stage r
        end
    end
  else
    r ← (if IS_MINGW P then mingw_stage d else mret (require d));
    match r with
    | None => mret tt
    | Some r => pip_stage d r
    end.

(** [if pip_pkgs: ...] after the loop. *)
Definition pip_batch : M unit :=
  s ← get_state;
  let pkgs := pip_pkgs s in
  if list_truthy pkgs then
    let args :=
      if opt_truthy extra_index_url then
        List.map (fun extra => ("--extra-index-url=" ++ extra)%string)
          (default [] extra_index_url)
      else [] in
    let args :=
      if opt_truthy find_links then
        List.map (fun link => ("--find-links=" ++ link)%string) (default [] find_links)
        ++ args
      else args in
    let args := pip_install ++ args ++ pkgs in
    env ← environ_copy;
    dict_set env "UV_PYTHON" (sys_executable P);;
    process ← subprocess_run W args (Some env);
    if (returncode process =? 0)%Z then installed_extend pkgs else mret tt
  else mret tt.

(** [if conda_pkgs: ...] after the loop. *)
Definition conda_batch : M unit :=
  s ← get_state;
  let pkgs := conda_pkgs s in
  if list_truthy pkgs then
    let conda_forge := ["--override-channels"; "-c"; "conda-forge"] in
    process ← subprocess_run W (conda_install ++ conda_forge ++ pkgs) None;
    if (returncode process =? 0)%Z then installed_extend pkgs else mret tt
  else mret tt.

(** [installed_packages = []; conda_pkgs = []; pip_pkgs = []]. *)
Definition reset_lists : M unit := fun s =>
  (inr tt, mkState (os_environ s) (heap s) (trace s) [] [] []).

(** The set that [requires] becomes. *)
Definition requires_set (requires : requires_arg) : gset string :=
  match requires with
  | RequiresStr s => list_to_set (PyStr.split "," s)
  | RequiresList l => list_to_set l
  | RequiresSet X => X
  end.

(** The requirement lines in the order in which the loop meets them. *)
Definition processing_order (requires : requires_arg) : list string :=
  set_iter W (requires_set requires).

(** The loop [for req in requires]. *)
Definition requires_loop (requires : requires_arg) : M unit :=
  for_ (processing_order requires) process_req.

Definition install_requirements (requires : requires_arg) : M (list string) :=
  reset_lists;;
  requires_loop requires;;
  pip_batch;;
  conda_batch;;
  s ← get_state;
  mret (installed_packages s).

(** *** What the pip block computes, named for the statements below *)

(** The options that the flags of a directive put in [args]. *)
Definition pip_flags (d : directive) (r : Requirement) : list string :=
  (if no_deps d then ["--no-deps"] else [])
  ++ (if only_binary d then [("--only-binary=" ++ name r)%string] else [])
  ++ (if prefer_binary d then ["--prefer-binary"] else [])
  ++ (if upgrade d then ["--upgrade"] else []).

(** The command line of the install of one directive. *)
Definition pip_single_args (d : directive) (r : Requirement) : list string :=
  pip_install
  ++ (pip_flags d r
      ++ List.map (fun url => ("--extra-index-url=" ++ url)%string)
           (default [] extra_index_url)
      ++ List.map (fun link => ("--find-links=" ++ link)%string)
           (default [] find_links))
  ++ [__str__ r].

(** The command line of the batched install of [pkgs]. *)
Definition pip_batch_args (pkgs : list string) : list string :=
  pip_install
  ++ (List.map (fun link => ("--find-links=" ++ link)%string)
        (default [] find_links)
      ++ List.map (fun extra => ("--extra-index-url=" ++ extra)%string)
           (default [] extra_index_url))
  ++ pkgs.

(** The copy of the environment [E] with [UV_PYTHON] set. *)
Definition base_env (E : gmap string string) : gmap string string :=
  <["UV_PYTHON" := sys_executable P]> E.

(** The same with the pre-release variables of a [--pre] directive. *)
Definition explicit_env (E : gmap string string) : gmap string string :=
  <["UV_PRERELEASE" := "explicit"]> (<["PIP_PRE" := "1"]> (base_env E)).

(** The dictionary of the first install of directive [d]. *)
Definition first_env (E : gmap string string) (d : directive)
    : gmap string string :=
  if pre_release d then explicit_env E else base_env E.

(** The dictionary of the second install, pre-releases allowed. *)
Definition allow_env (E : gmap string string) : gmap string string :=
  <["UV_PRERELEASE" := "allow"]> (<["PIP_PRE" := "1"]> (base_env E)).

(** The requirement that the MSYS2 block looks for, when it looks for
    one. *)
Definition mingw_requirement (d : directive) : option Requirement :=
  match alias_for_mingw d with
  | Some alias =>
      if String.eqb alias "" then None else Some (Requirement_class alias)
  | None => require d
  end.

(** The two filters at the top of the loop body let the line through. *)
Definition passes_filters (req : string) : bool :=
  is_supported_platform P (platform_of (parse_req req)) None
  && negb match python_version (parse_req req) with
          | Some v => PyStr.truthy v && negb (is_supported_python P W v)
          | None => false
          end.

(** The state that the pip block leaves. *)
Definition pip_stage_result (d : directive) (r : Requirement) (s : state)
    : state :=
  let E := os_environ s in
  let first := mkInvocation (pip_single_args d r) (Some (first_env E d)) in
  let retry := mkInvocation (pip_single_args d r) (Some (allow_env E)) in
  if list_truthy (pip_flags d r) then
    if (returncode (subprocess_result W (trace s) first) =? 0)%Z then
      mkState E (heap s ++ [first_env E d]) (trace s ++ [first])
              (installed_packages s ++ [name r]) (conda_pkgs s) (pip_pkgs s)
    else if negb (IS_FINAL_VERSION P) && negb (pre_release d) then
      mkState E (heap s ++ [allow_env E]) (trace s ++ [first; retry])
              (installed_packages s
               ++ (if (returncode
                         (subprocess_result W (trace s ++ [first]) retry)
                       =? 0)%Z
                   then [name r] else []))
              (conda_pkgs s) (pip_pkgs s)
    else
      mkState E (heap s ++ [first_env E d]) (trace s ++ [first])
              (installed_packages s) (conda_pkgs s) (pip_pkgs s)
  else
    mkState E (heap s ++ [first_env E d]) (trace s)
            (installed_packages s) (conda_pkgs s) (pip_pkgs s ++ [__str__ r]).

(** The state that the batched install leaves. *)
Definition pip_batch_result (s : state) : state :=
  let E := os_environ s in
  let batch :=
    mkInvocation (pip_batch_args (pip_pkgs s)) (Some (base_env E)) in
  if list_truthy (pip_pkgs s) then
    mkState E (heap s ++ [base_env E]) (trace s ++ [batch])
            (installed_packages s
             ++ (if (returncode (subprocess_result W (trace s) batch) =? 0)%Z
                 then pip_pkgs s else []))
            (conda_pkgs s) (pip_pkgs s)
  else s.

(** The state that the batched conda install leaves. *)
Definition conda_batch_result (s : state) : state :=
  let batch :=
    mkInvocation
      (conda_install ++ ["--override-channels"; "-c"; "conda-forge"]
       ++ conda_pkgs s) None in
  if list_truthy (conda_pkgs s) then
    mkState (os_environ s) (heap s) (trace s ++ [batch])
            (installed_packages s
             ++ (if (returncode (subprocess_result W (trace s) batch) =? 0)%Z
                 then conda_pkgs s else []))
            (conda_pkgs s) (pip_pkgs s)
  else s.

(** A call of the pip block for directive [d] when [os.environ] is [E]: the
    command line of the install of [d], and a dictionary passed as [env],
    the one of the first attempt or, for a directive without [--pre], the
    one of the second attempt. *)
Definition private_call (d : directive) (E : gmap string string)
    (inv : invocation) : Prop :=
  (exists r, inv_args inv = pip_single_args d r)
  /\ (inv_env inv = Some (first_env E d)
      \/ (pre_release d = false /\ inv_env inv = Some (allow_env E))).

(** A call of conda or of pacman: no [env] is passed, the child inherits
    the environment of the process. *)
Definition inherit_call (inv : invocation) : Prop :=
  inv_env inv = None
  /\ exists rest,
       inv_args inv = CONDA_EXE P :: rest \/ inv_args inv = "pacman" :: rest.

(** A call of a turn of the loop for directive [d]. *)
Definition turn_call (d : directive) (E : gmap string string)
    (inv : invocation) : Prop :=
  inherit_call inv \/ private_call d E inv.

End InstallRequirements.

(** ** Relations between the state before and after a computation *)

(** [m] takes every state to one related to it by [R], whether it returns
    or raises. *)
Definition always {A : Type} (R : state -> state -> Prop) (m : M A) : Prop :=
  forall s, R s (snd (m s)).

(** Nothing but child processes without [env], names added to
    [installed_packages] and names added to [conda_pkgs]. *)
Definition quiet (s s' : state) : Prop :=
  os_environ s' = os_environ s
  /\ heap s' = heap s
  /\ pip_pkgs s' = pip_pkgs s
  /\ (exists invs, trace s' = trace s ++ invs
                   /\ Forall (fun inv => inv_env inv = None) invs)
  /\ (exists ids, installed_packages s' = installed_packages s ++ ids).

(** [os.environ] is kept, the trace grows by calls that satisfy [Q] of
    [os.environ], and [installed_packages] grows. *)
Definition extends (Q : gmap string string -> invocation -> Prop)
    (s s' : state) : Prop :=
  os_environ s' = os_environ s
  /\ (exists invs, trace s' = trace s ++ invs
                   /\ Forall (Q (os_environ s)) invs)
  /\ (exists ids, installed_packages s' = installed_packages s ++ ids).

(** [os.environ] is kept. *)
Definition same_environ (s s' : state) : Prop :=
  os_environ s' = os_environ s.

(** A call that was given an environment carries [--upgrade]. *)
Definition upgrades (E : gmap string string) (inv : invocation) : Prop :=
  inv_env inv <> None -> "--upgrade" ∈ inv_args inv.

(** From a state with nothing queued for the batched pip install: the
    calls added carry [--upgrade] when they were given an environment, and
    nothing is queued. *)
Definition upgrading (s s' : state) : Prop :=
  pip_pkgs s = [] -> extends upgrades s s' /\ pip_pkgs s' = [].

(** [os.environ] is kept; the trace grows by calls that satisfy [Q] of
    [os.environ]; [installed_packages], [conda_pkgs] and [pip_pkgs] grow at
    their end. *)
Definition grows (Q : gmap string string -> invocation -> Prop)
    (s s' : state) : Prop :=
  os_environ s' = os_environ s
  /\ (exists invs, trace s' = trace s ++ invs
                   /\ Forall (Q (os_environ s)) invs)
  /\ (exists ids, installed_packages s' = installed_packages s ++ ids)
  /\ (exists names, conda_pkgs s' = conda_pkgs s ++ names)
  /\ (exists names, pip_pkgs s' = pip_pkgs s ++ names).

(** What one turn of the loop adds: the calls it makes, the identifiers it
    records, the names it queues for conda and for pip. *)
Record turn_added : Type := mkTurnAdded {
  added_calls : list invocation;
  added_ids : list string;
  added_conda : list string;
  added_pip : list string
}.

(** The loop on the lines [l] goes from [s] to [s'], every turn returns,
    and the turns add [added], one after the other, each from the state that
    the turn before left. *)
Fixpoint turns (P : Platform) (W : World)
    (extra_index_url find_links : option (list string))
    (l : list string) (s s' : state) (added : list turn_added) : Prop :=
  match l, added with
  | [], [] => s' = s
  | req :: l', a :: added' =>
      exists s1,
        process_req P W extra_index_url find_links req s = (inr tt, s1)
        /\ trace s1 = trace s ++ added_calls a
        /\ installed_packages s1 = installed_packages s ++ added_ids a
        /\ conda_pkgs s1 = conda_pkgs s ++ added_conda a
        /\ pip_pkgs s1 = pip_pkgs s ++ added_pip a
        /\ turns P W extra_index_url find_links l' s1 s' added'
  | _, _ => False
  end.

(** ** Concrete platforms and worlds *)

Definition linux_platform : Platform :=
  mkPlatform "linux-x86_64" "final" "3.12.1" "312" "/usr" "/usr/bin/python3"
             false None ∅.

(** A pre-release interpreter. *)
Definition preview_platform : Platform :=
  mkPlatform "linux-x86_64" "beta" "3.14.0b1" "314" "/usr" "/usr/bin/python3"
             false None ∅.

(** The same machine started with [PIP_UPGRADE=1]. *)
Definition upgrade_platform : Platform :=
  mkPlatform "linux-x86_64" "final" "3.12.1" "312" "/usr" "/usr/bin/python3"
             false None (<["PIP_UPGRADE" := "1"]> ∅).

Definition mingw_platform : Platform :=
  mkPlatform "mingw_x86_64" "final" "3.12.1" "312" "/mingw64"
             "/mingw64/bin/python" false None
             (<["MINGW_PACKAGE_PREFIX" := "mingw-w64-x86_64"]> ∅).

Definition conda_platform : Platform :=
  mkPlatform "linux-x86_64" "final" "3.12.1" "312" "/opt/conda"
             "/opt/conda/bin/python" true None ∅.

(** A world without [packaging] in which every child process exits with
    [rc] and prints nothing, and a set is iterated in the order of
    [elements]. *)
Definition world_const (rc : Z) : World :=
  mkWorld None None (fun _ _ => []) (fun _ _ => mkCompletedProcess rc "")
          elements (fun X => Permutation_refl (elements X)).

(** A process with an empty environment that has run nothing yet. *)
Definition state0 : state := mkState ∅ [] [] [] [] [].

End BuildTest.

(** * More string operations *)

Module PyStrMore.

Import PyStr.

(** The ASCII characters that [str.isspace] accepts: tab to carriage
    return, the four separators that follow [ESC], and the space. *)
Definition is_space (c : ascii) : bool :=
  let n := nat_of_ascii c in
  ((9 <=? n)%nat && (n <=? 13)%nat) || ((28 <=? n)%nat && (n <=? 32)%nat).

(** [s.lstrip()]. *)
Fixpoint lstrip (s : string) : string :=
  match s with
  | EmptyString => EmptyString
  | String c s' => if is_space c then lstrip s' else s
  end.

(** [s[::-1]]. *)
Fixpoint rev (s : string) : string :=
  match s with
  | EmptyString => EmptyString
  | String c s' => (rev s' ++ String c EmptyString)%string
  end.

(** [s.rstrip()]. *)
Definition rstrip (s : string) : string := rev (lstrip (rev s)).

(** [s.strip()]. *)
Definition strip (s : string) : string := rstrip (lstrip s).

(** [s.rsplit(sep, 1)]: the split at the last separator. *)
Definition rsplit_once (sep : ascii) (s : string) : list string :=
  List.map rev (List.rev (BuildTest.split_once sep (rev s))).

End PyStrMore.

(** * [ci/build_test.py]: the version of cx_Freeze, and names for the
    statements about the installer *)

Module BuildTestMore.

Import PyStr PyStrMore BuildTest.

(** ** [cx_freeze_status] *)

(** The loop over the lines of [cx_Freeze/__init__.py]: the version that the
    first line starting with [__version__] gives, the empty string when
    there is none. *)
Fixpoint version_from_lines (lines : list string) : exn + string :=
  match lines with
  | [] => inr EmptyString
  | line :: rest =>
      if startswith "__version__" line then
        match split "=" line !! 1%nat with
        | None => inl IndexError
        | Some value =>
            let version := remove_char quote_double (strip value) in
            let version :=
              if has_char "-" version then
                join "" (rsplit_once "." (replace_char "-" "." version))
              else version in
            inr version
        end
      else version_from_lines rest
  end.

(** ** The sets of [is_supported_platform] *)

Definition platform_universe : gset string :=
  {[ "linux"; "macos"; "mingw"; "windows" ]}.

(** [{plat for plat in platform if not plat.startswith("!")}]. *)
Definition platform_yes (platform : list string) : gset string :=
  list_to_set
    (List.filter (fun plat => negb (startswith "!" plat)) platform).

(** [{plat[1:] for plat in platform if plat.startswith("!")}]. *)
Definition platform_not (platform : list string) : gset string :=
  list_to_set
    (List.map (drop 1)
       (List.filter (fun plat => startswith "!" plat) platform)).

(** ** The tokens of a requirement line *)

(** The token is taken by one of the nine option branches of the scan. *)
Definition is_option_token (req_data : string) : bool :=
  startswith "--conda=" req_data
  || startswith "--mingw=" req_data
  || String.eqb req_data "--no-deps"
  || startswith "--platform=" req_data
  || startswith "--python-version" req_data
  || String.eqb req_data "--only-binary"
  || String.eqb req_data "--pre"
  || String.eqb req_data "--prefer-binary"
  || String.eqb req_data "--upgrade".

(** The token reaches the last branch: it is the requirement itself. *)
Definition is_bare_token (req_data : string) : bool :=
  negb (is_option_token req_data) && truthy req_data.

(** The requirement that the Conda block installs, when it installs one. *)
Definition conda_requirement (W : World) (d : directive)
    : option Requirement :=
  match alias_for_conda d with
  | Some alias =>
      if String.eqb alias "" then None else Some (Requirement_class W alias)
  | None => require d
  end.

(** ** Properties of computations and of state changes *)

(** Nothing is added to [installed_packages]. *)
Definition keeps_installed (s s' : state) : Prop :=
  installed_packages s' = installed_packages s.

(** A call of conda: first word [CONDA_EXE], environment inherited. *)
Definition is_conda_call (P : Platform) (inv : invocation) : Prop :=
  inv_env inv = None /\ exists rest, inv_args inv = CONDA_EXE P :: rest.

(** A call of pip: the words of [pip_install] first, environment given. *)
Definition is_pip_call (P : Platform) (inv : invocation) : Prop :=
  inv_env inv <> None /\ exists rest, inv_args inv = pip_install P ++ rest.

(** A call of pacman: first word [pacman], environment inherited. *)
Definition is_pacman_call (inv : invocation) : Prop :=
  inv_env inv = None /\ exists rest, inv_args inv = "pacman" :: rest.

(** From a state with nothing queued for pip: conda calls only, and
    nothing queued for pip. *)
Definition conda_only (P : Platform) (s s' : state) : Prop :=
  pip_pkgs s = [] ->
  extends (fun _ => is_conda_call P) s s' /\ pip_pkgs s' = [].

(** From a state with nothing queued for conda: pip calls only, and pacman
    calls on MSYS2, and nothing queued for conda. *)
Definition pip_or_pacman_only (P : Platform) (s s' : state) : Prop :=
  conda_pkgs s = [] ->
  extends (fun _ inv =>
             is_pip_call P inv \/ (IS_MINGW P = true /\ is_pacman_call inv))
          s s'
  /\ conda_pkgs s' = [].

(** The name that a line adds to [conda_pkgs] on Conda when there is no
    extra index URL to search. *)
Definition conda_queued (P : Platform) (W : World) (req : string)
    : option string :=
  if passes_filters P W req
  then __str__ <$> conda_requirement W (parse_req P W req)
  else None.

(** ** One more world *)

(** A world without [packaging] in which every child process exits with
    zero and prints a line that ends in [[installed]]. *)
Definition world_installed : World :=
  mkWorld None None (fun _ _ => [])
          (fun _ _ =>
             mkCompletedProcess 0 "mingw64/python-foo 1.0-1 [installed]")
          elements (fun X => Permutation_refl (elements X)).

(** [".0"] written [k] times. *)
Fixpoint zeros_suffix (k : nat) : string :=
  match k with
  | O => EmptyString
  | S k' => (".0" ++ zeros_suffix k')%string
  end.

End BuildTestMore.

(** * Properties of the string operations *)

Module PyStrFacts.

Import PyStr.

Lemma split_cons (sep : ascii) (s : string) :
  exists w ws, split sep s = w :: ws.
Proof.
  destruct s as [|c s]; simpl; [eauto|].
  destruct (Ascii.eqb c sep); [eauto|].
  destruct (split sep s); eauto.
Qed.

Lemma join_cons (sep w v : string) (ws : list string) :
  join sep (w :: v :: ws) = (w ++ sep ++ join sep (v :: ws))%string.
Proof. reflexivity. Qed.

(** Joining what [split] returns gives the string back. *)
Lemma join_split (sep : ascii) (s : string) :
  join (String sep EmptyString) (split sep s) = s.
Proof.
  induction s as [|c s IH]; [reflexivity|].
  simpl split. destruct (split_cons sep s) as (w & ws & Hs).
  rewrite Hs in *.
  destruct (Ascii.eqb_spec c sep) as [->|Hne].
  - rewrite join_cons, IH. reflexivity.
  - destruct ws as [|v ws].
    + simpl in *. now rewrite IH.
    + rewrite <- IH. reflexivity.
Qed.

(** No part that [split] returns holds the separator. *)
Lemma split_no_sep (sep : ascii) (s : string) :
  Forall (fun w => has_char sep w = false) (split sep s).
Proof.
  induction s as [|c s IH]; simpl.
  - repeat constructor.
  - destruct (Ascii.eqb_spec c sep) as [->|Hne].
    + constructor; [reflexivity|assumption].
    + apply Ascii.eqb_neq in Hne.
      destruct (split sep s) as [|w ws]; inversion IH; subst;
        constructor; simpl; rewrite ?Hne; auto.
Qed.

Lemma split_app_no_sep (sep : ascii) (w rest : string) :
  has_char sep w = false ->
  split sep (w ++ String sep rest) = w :: split sep rest.
Proof.
  induction w as [|c w IH]; simpl; intros H.
  - now rewrite Ascii.eqb_refl.
  - apply orb_false_iff in H as [Hc Hw].
    rewrite Hc, (IH Hw). reflexivity.
Qed.

Lemma split_single_no_sep (sep : ascii) (w : string) :
  has_char sep w = false -> split sep w = [w].
Proof.
  induction w as [|c w IH]; simpl; intros H; [reflexivity|].
  apply orb_false_iff in H as [Hc Hw].
  rewrite Hc, (IH Hw). reflexivity.
Qed.

(** Splitting the join of parts that are free of the separator gives the
    parts back. *)
Lemma split_join (sep : ascii) (parts : list string) :
  parts <> [] ->
  Forall (fun w => has_char sep w = false) parts ->
  split sep (join (String sep EmptyString) parts) = parts.
Proof.
  induction parts as [|w [|v ws] IH]; intros Hne Hall; [congruence| |].
  - inversion Hall; subst. now apply split_single_no_sep.
  - inversion Hall; subst. rewrite join_cons.
    change (String sep EmptyString ++ ?x)%string with (String sep x).
    rewrite split_app_no_sep by assumption.
    f_equal. apply IH; [discriminate|assumption].
Qed.

Example split_empty : split "," "" = [""].
Proof. reflexivity. Qed.

Example split_version : split "." "1.2.3" = ["1"; "2"; "3"].
Proof. reflexivity. Qed.

Example split_trailing : split "." "1." = ["1"; ""].
Proof. reflexivity. Qed.

Example join_version : join "." ["1"; "2"; "0"; "0"] = "1.2.0.0".
Proof. reflexivity. Qed.

Example islower_digits : islower "123" = false.
Proof. reflexivity. Qed.

Example lower_mixed : lower "My_Package" = "my_package".
Proof. reflexivity. Qed.

Example contains_installed :
  contains "installed" "mingw64/python 3.12 [installed]" = true.
Proof. reflexivity. Qed.

End PyStrFacts.

(** * Properties of [VersionInfo.__init__] *)

Module WinVersionInfoFacts.

Import PyStr PyStrFacts WinVersionInfo.

(** The loop appends as many ["0"] as are missing to reach four parts. *)
Lemma pad_parts_spec (parts : list string) :
  pad_parts parts = parts ++ replicate (4 - length parts) "0".
Proof.
  funelim (pad_parts parts).
  - rewrite H. rewrite length_app. simpl length.
    rewrite <- app_assoc. f_equal.
    replace (4 - length parts) with (S (4 - (length parts + 1))) by lia.
    reflexivity.
  - replace (4 - length parts) with 0 by lia. simpl. now rewrite app_nil_r.
Qed.

Lemma Forall_replicate_zero (n : nat) :
  Forall (fun w => has_char "." w = false) (replicate n "0").
Proof. induction n; simpl; constructor; auto. Qed.

Example init_short :
  version (__init__ "1.2" None None None None None None None None
                    None None true) = "1.2.0.0".
Proof. reflexivity. Qed.

Example init_long :
  version (__init__ "1.2.3.4.5" None None None None None None None None
                    None None true) = "1.2.3.4.5".
Proof. reflexivity. Qed.

(** C10: [VersionInfo.__init__] pads the version with ["0"] parts up to four
    dot-separated parts.  The stored version splits into the parts of the
    input followed by the missing ["0"] parts, in order; with at most four
    input parts that makes exactly four, and an input of four parts or more
    is stored unchanged. *)
Theorem version_normalized (v : string)
    (internal_name original_filename comments company description
     copyright trademarks product : option string)
    (dll debug : option bool) (verbose : bool) :
  let parts := split "." v in
  let stored :=
    version (__init__ v internal_name original_filename comments company
               description copyright trademarks product dll debug verbose) in
  split "." stored = parts ++ replicate (4 - length parts) "0"
  /\ (length parts <= 4 -> length (split "." stored) = 4)
  /\ (4 <= length parts -> stored = v).
Proof.
  intros parts stored. subst stored. unfold __init__. simpl version.
  fold parts. rewrite pad_parts_spec.
  assert (Hsplit : split "." (join "." (parts ++ replicate (4 - length parts) "0"))
                   = parts ++ replicate (4 - length parts) "0").
  { apply split_join.
    - subst parts. destruct (split_cons "." v) as (w & ws & ->). discriminate.
    - apply Forall_app. split; [apply split_no_sep|apply Forall_replicate_zero]. }
  split; [exact Hsplit|]. split.
  - intros Hle. rewrite Hsplit, length_app, length_replicate. lia.
  - intros Hge. replace (4 - length parts) with 0 by lia.
    simpl. rewrite app_nil_r. apply join_split.
Qed.

(** A version of two parts gets two ["0"] parts. *)
Lemma version_normalized_witness :
  length (split "." "1.2") <= 4
  /\ length (split "."
       (version (__init__ "1.2" None None None None None None None None
                          None None true))) = 4.
Proof.
  split; [simpl; lia|].
  apply (version_normalized "1.2" None None None None None None None None
                            None None true).
  simpl; lia.
Defined.

End WinVersionInfoFacts.

(** * Properties of [ci/build_test.py] *)

Module BuildTestFacts.

Import PyStr BuildTest.

(** ** The platform filter *)

Example not_windows_on_linux (P : Platform) :
  is_supported_platform P (PlatformStr "!windows") (Some "linux") = true.
Proof. vm_compute. reflexivity. Qed.

Example not_windows_on_windows (P : Platform) :
  is_supported_platform P (PlatformStr "!windows") (Some "windows") = false.
Proof. vm_compute. reflexivity. Qed.

Example unspecified_platform (P : Platform) (p : option string) :
  is_supported_platform P PlatformNone p = true
  /\ is_supported_platform P (PlatformList []) p = true.
Proof. split; reflexivity. Qed.

(** The tag that stands for the running platform is never empty. *)
Lemma platform_in_use_nonempty (P : Platform) :
  (if IS_MACOS P then "macos"
   else if IS_MINGW P then "mingw"
   else if IS_WINDOWS P then "windows" else "linux") <> "".
Proof. destruct (IS_MACOS P), (IS_MINGW P), (IS_WINDOWS P); discriminate. Qed.

(** C3, as the code has it: the empty string is split into the list of one
    empty tag before the test for an unspecified platform, so the empty
    constraint supports the empty tag only.  On ["linux"], and on whichever
    platform is detected when none is passed, the answer is [False]. *)
Theorem empty_constraint_unsupported (P : Platform) (p : string) :
  is_supported_platform P (PlatformStr "") (Some p) = bool_decide (p = "")
  /\ is_supported_platform P (PlatformStr "") (Some "linux") = false
  /\ is_supported_platform P (PlatformStr "") None = false.
Proof.
  assert (Hyes : set_truthy ({[""]} : gset string) = true) by (vm_compute; reflexivity).
  assert (Hnot : set_truthy (∅ : gset string) = false) by (vm_compute; reflexivity).
  assert (Hgen : forall q, bool_decide (q ∈ ({[""]} : gset string))
                           = bool_decide (q = "")).
  { intros q. apply bool_decide_ext. set_solver. }
  unfold is_supported_platform. simpl split. cbn [List.filter List.map startswith negb].
  assert (Hone : (list_to_set [""] : gset string) = {[""]}) by set_solver.
  rewrite Hone. cbn [list_to_set foldr].
  rewrite Hyes, Hnot, !Hgen.
  split; [reflexivity|]. split; [reflexivity|].
  apply bool_decide_eq_false, platform_in_use_nonempty.
Qed.

(** ** The MSYS2 names *)

Lemma mingw_packages_head (package : string) :
  exists rest,
    mingw_packages package = ("python-" ++ package)%string :: package :: rest.
Proof.
  unfold mingw_packages.
  destruct (negb (islower package)), (has_char "_" package),
    (has_char "-" package); simpl; eauto.
Qed.

(** C8: for [My_Package] the names are [python-My_Package], [My_Package],
    the lower-case forms of the two and the hyphenated forms of the four, in
    this order; and the list is a function of the package name alone. *)
Theorem mingw_packages_My_Package :
  mingw_packages "My_Package"
  = ["python-My_Package"; "My_Package";
     "python-my_package"; "my_package";
     "python-My-Package"; "My-Package";
     "python-my-package"; "my-package"]
  /\ (forall package1 package2 : string,
        package1 = package2 ->
        mingw_packages package1 = mingw_packages package2).
Proof. split; [reflexivity|]. intros ? ? ->. reflexivity. Qed.

(** ** Running the primitives *)

Lemma heap_lookup_fresh (h : list (gmap string string))
    (e : gmap string string) :
  (h ++ [e]) !! length h = Some e.
Proof. rewrite lookup_app_r by lia. now rewrite Nat.sub_diag. Qed.

Lemma heap_insert_fresh (h : list (gmap string string))
    (e e' : gmap string string) :
  <[length h := e']> (h ++ [e]) = h ++ [e'].
Proof. rewrite insert_app_r_alt by lia. now rewrite Nat.sub_diag. Qed.

Lemma opt_extend_r (o : option (list string)) (f : string -> string)
    (args : list string) :
  (if opt_truthy o then args ++ List.map f (default [] o) else args)
  = args ++ List.map f (default [] o).
Proof.
  unfold opt_truthy.
  destruct (default [] o); simpl; [now rewrite app_nil_r|reflexivity].
Qed.

Lemma opt_extend_l (o : option (list string)) (f : string -> string)
    (args : list string) :
  (if opt_truthy o then List.map f (default [] o) ++ args else args)
  = List.map f (default [] o) ++ args.
Proof. unfold opt_truthy. destruct (default [] o); reflexivity. Qed.

Lemma opt_map_or_nil (o : option (list string)) (f : string -> string) :
  (if opt_truthy o then List.map f (default [] o) else [])
  = List.map f (default [] o).
Proof. unfold opt_truthy. destruct (default [] o); reflexivity. Qed.

Lemma run_ret {B C : Type} (x : B) (f : B -> M C) (s : state) :
  (mret x ≫= f) s = f x s.
Proof. reflexivity. Qed.

Lemma run_bind_assoc {B C D : Type} (m : M B) (f : B -> M C) (g : C -> M D)
    (s : state) :
  ((m ≫= f) ≫= g) s = (m ≫= (fun x => f x ≫= g)) s.
Proof. unfold mbind, M_bind. destruct (m s) as [[e|x] s']; reflexivity. Qed.

Lemma run_get_state {B : Type} (f : state -> M B) (s : state) :
  (get_state ≫= f) s = f s s.
Proof. reflexivity. Qed.

Lemma run_environ_copy {B : Type} (f : loc -> M B) E h tr ins cp pp :
  (environ_copy ≫= f) (mkState E h tr ins cp pp)
  = f (Obj (length h)) (mkState E (h ++ [E]) tr ins cp pp).
Proof. reflexivity. Qed.

(** An item assignment on the dictionary allocated last changes that
    dictionary and nothing else. *)
Lemma run_dict_set {B : Type} (f : unit -> M B) key v E h e tr ins cp pp :
  (dict_set (Obj (length h)) key v ≫= f) (mkState E (h ++ [e]) tr ins cp pp)
  = f tt (mkState E (h ++ [<[key := v]> e]) tr ins cp pp).
Proof.
  unfold mbind, M_bind, dict_set, deref.
  cbn [heap os_environ trace installed_packages conda_pkgs pip_pkgs].
  rewrite heap_lookup_fresh, heap_insert_fresh. reflexivity.
Qed.

Lemma run_subprocess_env {B : Type} (W : World)
    (f : CompletedProcess -> M B) args E h e tr ins cp pp :
  (subprocess_run W args (Some (Obj (length h))) ≫= f)
    (mkState E (h ++ [e]) tr ins cp pp)
  = f (subprocess_result W tr (mkInvocation args (Some e)))
      (mkState E (h ++ [e]) (tr ++ [mkInvocation args (Some e)]) ins cp pp).
Proof.
  unfold mbind, M_bind, subprocess_run, deref.
  cbn [heap os_environ trace installed_packages conda_pkgs pip_pkgs
       fmap option_fmap option_map].
  rewrite heap_lookup_fresh. reflexivity.
Qed.

Lemma run_subprocess_inherit {B : Type} (W : World)
    (f : CompletedProcess -> M B) args (s : state) :
  (subprocess_run W args None ≫= f) s
  = f (subprocess_result W (trace s) (mkInvocation args None))
      (mkState (os_environ s) (heap s)
               (trace s ++ [mkInvocation args None])
               (installed_packages s) (conda_pkgs s) (pip_pkgs s)).
Proof. reflexivity. Qed.

(** ** The pip block *)

Section PipBlock.

Context (P : Platform) (W : World).
Context (extra_index_url find_links : option (list string)).

(** The pip block always returns, and leaves [pip_stage_result]. *)
Lemma pip_stage_spec (d : directive) (r : Requirement) (s : state) :
  pip_stage P W extra_index_url find_links d r s
  = (inr tt, pip_stage_result P W extra_index_url find_links d r s).
Proof.
  destruct s as [E h tr ins cp pp].
  destruct d as [ac am nd pl pv ob pr pb rq up].
  unfold pip_stage, pip_stage_result, pip_single_args, pip_flags,
    first_env, allow_env, explicit_env, base_env.
  cbv zeta.
  cbn [os_environ heap trace installed_packages conda_pkgs pip_pkgs
       no_deps only_binary pre_release prefer_binary upgrade].
  rewrite run_environ_copy, run_dict_set.
  rewrite !opt_extend_r.
  destruct nd, ob, pb, up; cbn [app list_truthy];
    (destruct pr;
     [ rewrite run_bind_assoc, run_dict_set, run_dict_set
     | rewrite run_ret ]);
    try reflexivity;
    rewrite run_subprocess_env; rewrite <- ?app_assoc; cbn [app];
    (destruct (returncode _ =? 0)%Z; [reflexivity|]);
    (destruct (IS_FINAL_VERSION P); cbn [negb andb]; [reflexivity|]);
    try reflexivity;
    rewrite run_dict_set, run_dict_set, run_subprocess_env;
    (destruct (returncode _ =? 0)%Z;
     rewrite <- ?app_assoc, ?app_nil_r; reflexivity).
Qed.

(** The batched install always returns, and leaves [pip_batch_result]. *)
Lemma pip_batch_spec (s : state) :
  pip_batch P W extra_index_url find_links s
  = (inr tt, pip_batch_result P W extra_index_url find_links s).
Proof.
  destruct s as [E h tr ins cp pp].
  unfold pip_batch, pip_batch_result, pip_batch_args, base_env.
  rewrite run_get_state. cbv zeta.
  cbn [os_environ heap trace installed_packages conda_pkgs pip_pkgs].
  destruct (list_truthy pp); [|reflexivity].
  rewrite opt_map_or_nil, opt_extend_l.
  rewrite run_environ_copy, run_dict_set, run_subprocess_env.
  destruct (returncode _ =? 0)%Z; rewrite ?app_nil_r; reflexivity.
Qed.

End PipBlock.

(** ** State relations through the monad *)

Section Always.

Context (R : state -> state -> Prop).
Hypothesis R_refl : forall s, R s s.
Hypothesis R_trans : forall s1 s2 s3, R s1 s2 -> R s2 s3 -> R s1 s3.

Lemma always_ret {A : Type} (x : A) : always R (mret x).
Proof. intros s. apply R_refl. Qed.

Lemma always_raise {A : Type} (e : exn) : always R (@raise A e).
Proof. intros s. apply R_refl. Qed.

Lemma always_get_state : always R get_state.
Proof. intros s. apply R_refl. Qed.

Lemma always_bind {A B : Type} (m : M A) (f : A -> M B) :
  always R m -> (forall x, always R (f x)) -> always R (m ≫= f).
Proof.
  intros Hm Hf s. unfold mbind, M_bind.
  specialize (Hm s). destruct (m s) as [[e|x] s']; simpl in *; [exact Hm|].
  eapply R_trans; [exact Hm|apply Hf].
Qed.

Lemma always_for_ {A : Type} (l : list A) (body : A -> M unit) :
  (forall x, always R (body x)) -> always R (for_ l body).
Proof.
  intros Hbody. induction l as [|x l IH]; simpl.
  - apply always_ret.
  - apply always_bind; [apply Hbody|intros _; exact IH].
Qed.

End Always.

Lemma quiet_refl (s : state) : quiet s s.
Proof.
  repeat split; try reflexivity.
  - exists []. now rewrite app_nil_r.
  - exists []. now rewrite app_nil_r.
Qed.

Lemma quiet_trans (s1 s2 s3 : state) : quiet s1 s2 -> quiet s2 s3 -> quiet s1 s3.
Proof.
  intros (He1 & Hh1 & Hp1 & (i1 & Ht1 & Hf1) & (d1 & Hi1))
         (He2 & Hh2 & Hp2 & (i2 & Ht2 & Hf2) & (d2 & Hi2)).
  repeat split; try congruence.
  - exists (i1 ++ i2). split; [rewrite Ht2, Ht1; now rewrite app_assoc|].
    apply Forall_app; auto.
  - exists (d1 ++ d2). rewrite Hi2, Hi1. now rewrite app_assoc.
Qed.

Lemma extends_refl Q (s : state) : extends Q s s.
Proof.
  repeat split.
  - exists []. split; [now rewrite app_nil_r|constructor].
  - exists []. now rewrite app_nil_r.
Qed.

Lemma extends_trans Q (s1 s2 s3 : state) :
  extends Q s1 s2 -> extends Q s2 s3 -> extends Q s1 s3.
Proof.
  intros (He1 & (i1 & Ht1 & Hf1) & (d1 & Hi1))
         (He2 & (i2 & Ht2 & Hf2) & (d2 & Hi2)).
  repeat split; try congruence.
  - exists (i1 ++ i2). split; [rewrite Ht2, Ht1; now rewrite app_assoc|].
    rewrite He1 in Hf2. apply Forall_app; auto.
  - exists (d1 ++ d2). rewrite Hi2, Hi1. now rewrite app_assoc.
Qed.

Lemma extends_intro Q (s s' : state) (invs : list invocation)
    (ids : list string) :
  os_environ s' = os_environ s ->
  trace s' = trace s ++ invs ->
  Forall (Q (os_environ s)) invs ->
  installed_packages s' = installed_packages s ++ ids ->
  extends Q s s'.
Proof. intros He Ht Hf Hi. repeat split; eauto. Qed.

(** A quiet step satisfies every property that holds of the calls made
    without [env]. *)
Lemma quiet_extends (Q : gmap string string -> invocation -> Prop)
    (s s' : state) :
  (forall E inv, inv_env inv = None -> Q E inv) ->
  quiet s s' -> extends Q s s'.
Proof.
  intros HQ (He & _ & _ & (invs & Ht & Hf) & Hi). repeat split; auto.
  exists invs. split; [assumption|].
  eapply Forall_impl; [exact Hf|]. intros inv; apply HQ.
Qed.

Lemma always_impl {A : Type} (R R' : state -> state -> Prop) (m : M A) :
  (forall s s', R s s' -> R' s s') -> always R m -> always R' m.
Proof. intros HR Hm s. apply HR, Hm. Qed.

(** ** The Conda and MSYS2 blocks are quiet *)

Lemma quiet_subprocess_inherit (W : World) (args : list string) :
  always quiet (subprocess_run W args None).
Proof.
  intros s. repeat split; simpl.
  - exists [mkInvocation args None]. split; [reflexivity|].
    repeat constructor.
  - exists []. now rewrite app_nil_r.
Qed.

Lemma quiet_installed_extend (l : list string) :
  always quiet (installed_extend l).
Proof.
  intros s. repeat split; simpl.
  - exists []. split; [now rewrite app_nil_r|constructor].
  - now exists l.
Qed.

Lemma quiet_conda_pkgs_append (p : string) :
  always quiet (conda_pkgs_append p).
Proof.
  intros s. repeat split; simpl.
  - exists []. split; [now rewrite app_nil_r|constructor].
  - exists []. now rewrite app_nil_r.
Qed.

Ltac quiet_step :=
  first
    [ apply always_ret; exact quiet_refl
    | apply always_raise; exact quiet_refl
    | apply always_get_state; exact quiet_refl
    | apply quiet_subprocess_inherit
    | apply quiet_installed_extend
    | apply quiet_conda_pkgs_append
    | apply always_bind; [exact quiet_trans | | intros ? ] ].

Section QuietBlocks.

Context (P : Platform) (W : World).
Context (extra_index_url find_links : option (list string)).

Lemma quiet_conda_lookup (r : Requirement) (extras args : list string) :
  always quiet (conda_lookup P W r extras args).
Proof.
  revert args. induction extras as [|extra rest IH]; intros args;
    cbn [conda_lookup].
  - quiet_step.
  - quiet_step; [destruct (last extra); quiet_step|].
    quiet_step; [quiet_step|]. apply IH.
Qed.

Lemma quiet_conda_stage (r : Requirement) :
  always quiet (conda_stage P W extra_index_url r).
Proof.
  unfold conda_stage. quiet_step.
  - destruct (opt_truthy extra_index_url);
      [apply quiet_conda_lookup|quiet_step].
  - destruct (list_truthy _); [|quiet_step].
    quiet_step; [quiet_step|].
    destruct (returncode _ =? 0)%Z; quiet_step.
Qed.

Lemma quiet_mingw_try (packages : list string) :
  always quiet (mingw_try P W packages).
Proof.
  induction packages as [|package_name rest IH]; cbn [mingw_try].
  - quiet_step.
  - quiet_step; [quiet_step|].
    destruct (returncode _ =? 1)%Z; [exact IH|].
    destruct (_ && _).
    + quiet_step; quiet_step.
    + quiet_step; [quiet_step|].
      destruct (returncode _ =? 0)%Z; [quiet_step; quiet_step|exact IH].
Qed.

Lemma quiet_mingw_stage (d : directive) :
  always quiet (mingw_stage P W d).
Proof.
  unfold mingw_stage.
  assert (Htry : forall r,
    always quiet (mingw_try P W (mingw_packages (name r)) ≫=
                  (fun installed : bool =>
                     if installed then mret None else mret (Some r)))).
  { intros r. quiet_step; [apply quiet_mingw_try|].
    destruct x; quiet_step. }
  destruct (alias_for_mingw d) as [alias|].
  - destruct (String.eqb alias ""); [quiet_step|apply Htry].
  - destruct (require d); [apply Htry|quiet_step].
Qed.

Lemma quiet_conda_batch : always quiet (conda_batch P W).
Proof.
  unfold conda_batch. quiet_step; [quiet_step|].
  destruct (list_truthy _); [|quiet_step].
  quiet_step; [quiet_step|].
  destruct (returncode _ =? 0)%Z; quiet_step.
Qed.

End QuietBlocks.

(** ** What a block adds to the trace and to the three lists *)

Lemma grows_refl Q (s : state) : grows Q s s.
Proof.
  split; [reflexivity|]. split; [|repeat split].
  - exists []. split; [now rewrite app_nil_r|constructor].
  - exists []. now rewrite app_nil_r.
  - exists []. now rewrite app_nil_r.
  - exists []. now rewrite app_nil_r.
Qed.

Lemma grows_trans Q (s1 s2 s3 : state) :
  grows Q s1 s2 -> grows Q s2 s3 -> grows Q s1 s3.
Proof.
  intros (He1 & (i1 & Ht1 & Hf1) & (d1 & Hi1) & (c1 & Hc1) & (p1 & Hp1))
         (He2 & (i2 & Ht2 & Hf2) & (d2 & Hi2) & (c2 & Hc2) & (p2 & Hp2)).
  split; [congruence|]. split; [|repeat split].
  - exists (i1 ++ i2). split; [rewrite Ht2, Ht1; now rewrite app_assoc|].
    rewrite He1 in Hf2. apply Forall_app; auto.
  - exists (d1 ++ d2). rewrite Hi2, Hi1. now rewrite app_assoc.
  - exists (c1 ++ c2). rewrite Hc2, Hc1. now rewrite app_assoc.
  - exists (p1 ++ p2). rewrite Hp2, Hp1. now rewrite app_assoc.
Qed.

Lemma grows_weaken (Q Q' : gmap string string -> invocation -> Prop)
    (s s' : state) :
  (forall inv, Q (os_environ s) inv -> Q' (os_environ s) inv) ->
  grows Q s s' -> grows Q' s s'.
Proof.
  intros HQ (He & (invs & Ht & Hf) & Hrest). split; [exact He|].
  split; [|exact Hrest].
  exists invs. split; [assumption|].
  eapply Forall_impl; [exact Hf|]. exact HQ.
Qed.

Lemma grows_installed_extend Q (l : list string) :
  always (grows Q) (installed_extend l).
Proof.
  intros s. split; [reflexivity|]. split; [|repeat split]; simpl.
  - exists []. split; [now rewrite app_nil_r|constructor].
  - now exists l.
  - exists []. now rewrite app_nil_r.
  - exists []. now rewrite app_nil_r.
Qed.

Lemma grows_conda_pkgs_append Q (p : string) :
  always (grows Q) (conda_pkgs_append p).
Proof.
  intros s. split; [reflexivity|]. split; [|repeat split]; simpl.
  - exists []. split; [now rewrite app_nil_r|constructor].
  - exists []. now rewrite app_nil_r.
  - now exists [p].
  - exists []. now rewrite app_nil_r.
Qed.

(** A call without [env] of a command line whose first word is that of
    conda or of pacman. *)
Lemma grows_subprocess_inherit (P : Platform) (W : World)
    (args : list string) :
  (exists rest, args = CONDA_EXE P :: rest \/ args = "pacman" :: rest) ->
  always (grows (fun _ => inherit_call P)) (subprocess_run W args None).
Proof.
  intros Hargs s. split; [reflexivity|]. split; [|repeat split]; simpl.
  - exists [mkInvocation args None]. split; [reflexivity|].
    constructor; [|constructor]. split; [reflexivity|exact Hargs].
  - exists []. now rewrite app_nil_r.
  - exists []. now rewrite app_nil_r.
  - exists []. now rewrite app_nil_r.
Qed.

Ltac grows_step :=
  first
    [ apply always_ret; exact (grows_refl _)
    | apply always_raise; exact (grows_refl _)
    | apply always_get_state; exact (grows_refl _)
    | apply grows_subprocess_inherit; eexists; first [left; reflexivity | right; reflexivity]
    | apply grows_installed_extend
    | apply grows_conda_pkgs_append
    | apply always_bind; [exact (grows_trans _) | | intros ? ] ].

Section Growth.

Context (P : Platform) (W : World).
Context (extra_index_url find_links : option (list string)).

Lemma grows_conda_lookup (r : Requirement) (extras args : list string) :
  always (grows (fun _ => inherit_call P)) (conda_lookup P W r extras args).
Proof.
  revert args. induction extras as [|extra rest IH]; intros args;
    cbn [conda_lookup].
  - grows_step.
  - grows_step; [destruct (last extra); grows_step|].
    grows_step; [grows_step|]. apply IH.
Qed.

Lemma grows_conda_stage (r : Requirement) :
  always (grows (fun _ => inherit_call P)) (conda_stage P W extra_index_url r).
Proof.
  unfold conda_stage. grows_step.
  - destruct (opt_truthy extra_index_url);
      [apply grows_conda_lookup|grows_step].
  - destruct (list_truthy _); [|grows_step].
    grows_step; [grows_step|].
    destruct (returncode _ =? 0)%Z; grows_step.
Qed.

Lemma grows_mingw_try (packages : list string) :
  always (grows (fun _ => inherit_call P)) (mingw_try P W packages).
Proof.
  induction packages as [|package_name rest IH]; cbn [mingw_try].
  - grows_step.
  - grows_step; [grows_step|].
    destruct (returncode _ =? 1)%Z; [exact IH|].
    destruct (_ && _).
    + grows_step; grows_step.
    + grows_step; [grows_step|].
      destruct (returncode _ =? 0)%Z; [grows_step; grows_step|exact IH].
Qed.

Lemma grows_mingw_stage (d : directive) :
  always (grows (fun _ => inherit_call P)) (mingw_stage P W d).
Proof.
  unfold mingw_stage.
  assert (Htry : forall r,
    always (grows (fun _ => inherit_call P))
      (mingw_try P W (mingw_packages (name r)) ≫=
       (fun installed : bool =>
          if installed then mret None else mret (Some r)))).
  { intros r. grows_step; [apply grows_mingw_try|].
    destruct x; grows_step. }
  destruct (alias_for_mingw d) as [alias|].
  - destruct (String.eqb alias ""); [grows_step|apply Htry].
  - destruct (require d); [apply Htry|grows_step].
Qed.

(** The batched conda install always returns, and leaves
    [conda_batch_result]. *)
Lemma conda_batch_spec (s : state) :
  conda_batch P W s = (inr tt, conda_batch_result P W s).
Proof.
  destruct s as [E h tr ins cp pp].
  unfold conda_batch, conda_batch_result. rewrite run_get_state. cbv zeta.
  cbn [os_environ heap trace installed_packages conda_pkgs pip_pkgs].
  destruct (list_truthy cp); [|reflexivity].
  rewrite run_subprocess_inherit.
  cbn [os_environ heap trace installed_packages conda_pkgs pip_pkgs].
  destruct (returncode _ =? 0)%Z; rewrite ?app_nil_r; reflexivity.
Qed.

(** The calls of the pip block are those of its directive, each with a
    dictionary of its own. *)
Lemma grows_pip_stage (d : directive) (r : Requirement) :
  always (grows (private_call P extra_index_url find_links d))
         (pip_stage P W extra_index_url find_links d r).
Proof.
  intros s. rewrite pip_stage_spec. unfold pip_stage_result. cbv zeta.
  cbn [snd].
  assert (Hfirst :
    private_call P extra_index_url find_links d (os_environ s)
      (mkInvocation (pip_single_args P extra_index_url find_links d r)
         (Some (first_env P (os_environ s) d)))).
  { split; [now exists r|now left]. }
  assert (Hnil : forall (A : Type) (l : list A), exists l', l = l ++ l').
  { intros A l. exists []. now rewrite app_nil_r. }
  destruct (list_truthy (pip_flags d r)).
  - destruct (returncode _ =? 0)%Z.
    + split; [reflexivity|]. split; [|repeat split]; simpl; eauto.
    + destruct (negb (IS_FINAL_VERSION P) && negb (pre_release d)) eqn:Hretry.
      * apply andb_true_iff in Hretry as [_ Hpre].
        apply negb_true_iff in Hpre.
        split; [reflexivity|]. split; [|repeat split]; simpl; eauto.
        eexists. split; [reflexivity|].
        constructor; [exact Hfirst|]. constructor; [|constructor].
        split; [now exists r|now right].
      * split; [reflexivity|]. split; [|repeat split]; simpl; eauto.
  - split; [reflexivity|]. split; [|repeat split]; simpl; eauto.
    exists []. split; [now rewrite app_nil_r|constructor].
Qed.

(** A turn of the loop makes calls of conda or pacman without [env], and
    calls of pip for its own directive. *)
Lemma grows_process_req (req : string) :
  always (grows (turn_call P extra_index_url find_links (parse_req P W req)))
         (process_req P W extra_index_url find_links req).
Proof.
  assert (Hinherit : forall s s',
    grows (fun _ => inherit_call P) s s' ->
    grows (turn_call P extra_index_url find_links (parse_req P W req)) s s').
  { intros s s'. apply grows_weaken. intros inv Hinv. now left. }
  unfold process_req. cbv zeta.
  destruct (negb (is_supported_platform P _ None)); [grows_step|].
  destruct (match python_version _ with Some _ => _ | None => _ end);
    [grows_step|].
  destruct (IS_CONDA P).
  - destruct (alias_for_conda _) as [alias|].
    + destruct (String.eqb alias ""); [grows_step|].
      eapply always_impl; [exact Hinherit|apply grows_conda_stage].
    + destruct (require _); [|grows_step].
      eapply always_impl; [exact Hinherit|apply grows_conda_stage].
  - grows_step.
    + destruct (IS_MINGW P); [|grows_step].
      eapply always_impl; [exact Hinherit|apply grows_mingw_stage].
    + destruct x as [r|]; [|grows_step].
      eapply always_impl; [|apply grows_pip_stage].
      intros s s'. apply grows_weaken. intros inv Hinv. now right.
Qed.

End Growth.

(** ** The two ways of the pip block *)

(** A directive with [--no-deps], [--only-binary], [--prefer-binary] or
    [--upgrade] is installed by a call of its own, made of these options. *)
Lemma pip_flagged_individually (P : Platform) (W : World)
    (extra_index_url find_links : option (list string))
    (d : directive) (r : Requirement) (s : state) :
  no_deps d || only_binary d || prefer_binary d || upgrade d = true ->
  let out := pip_stage P W extra_index_url find_links d r s in
  pip_pkgs (snd out) = pip_pkgs s
  /\ exists invs,
       trace (snd out)
       = trace s
         ++ mkInvocation (pip_single_args P extra_index_url find_links d r)
              (Some (first_env P (os_environ s) d)) :: invs.
Proof.
  intros Hflag out. subst out. rewrite pip_stage_spec.
  unfold pip_stage_result. cbv zeta.
  assert (Hflagged : list_truthy (pip_flags d r) = true).
  { unfold pip_flags.
    destruct (no_deps d), (only_binary d), (prefer_binary d), (upgrade d);
      try reflexivity; discriminate. }
  rewrite Hflagged.
  destruct (returncode _ =? 0)%Z;
    [|destruct (negb (IS_FINAL_VERSION P) && negb (pre_release d))];
    cbn [snd trace pip_pkgs]; eauto.
Qed.

(** A directive with none of these four options runs nothing and is queued
    in [pip_pkgs], whether it has [--pre] or not. *)
Lemma pip_unflagged_queued (P : Platform) (W : World)
    (extra_index_url find_links : option (list string))
    (d : directive) (r : Requirement) (s : state) :
  no_deps d || only_binary d || prefer_binary d || upgrade d = false ->
  let out := pip_stage P W extra_index_url find_links d r s in
  trace (snd out) = trace s
  /\ pip_pkgs (snd out) = pip_pkgs s ++ [__str__ r].
Proof.
  intros Hflag out. subst out. rewrite pip_stage_spec.
  unfold pip_stage_result. cbv zeta.
  assert (Hflagged : list_truthy (pip_flags d r) = false).
  { unfold pip_flags.
    destruct (no_deps d), (only_binary d), (prefer_binary d), (upgrade d);
      try reflexivity; discriminate. }
  rewrite Hflagged. split; reflexivity.
Qed.

(** The queue is installed by one call. *)
Lemma pip_batch_single_call (P : Platform) (W : World)
    (extra_index_url find_links : option (list string)) (s : state) :
  pip_pkgs s <> [] ->
  trace (snd (pip_batch P W extra_index_url find_links s))
  = trace s
    ++ [mkInvocation (pip_batch_args P extra_index_url find_links (pip_pkgs s))
          (Some (base_env P (os_environ s)))].
Proof.
  intros Hne. rewrite pip_batch_spec. unfold pip_batch_result. cbv zeta.
  destruct (pip_pkgs s); [congruence|reflexivity].
Qed.

(** When pacman knows none of the names, they are probed one after the
    other in the order of the list, and nothing is installed. *)
Lemma mingw_try_probes_in_order (P : Platform) (W : World)
    (packages : list string) (s : state) :
  (forall tr inv, returncode (subprocess_result W tr inv) = 1%Z) ->
  let probe (package_name : string) :=
    mkInvocation
      (pacman_search
       ++ [(MINGW_PACKAGE_PREFIX P ++ "-" ++ package_name)%string]) None in
  mingw_try P W packages s
  = (inr false,
     mkState (os_environ s) (heap s) (trace s ++ List.map probe packages)
             (installed_packages s) (conda_pkgs s) (pip_pkgs s)).
Proof.
  intros Hmissing probe. revert s.
  induction packages as [|package_name rest IH]; intros s.
  - destruct s. simpl. now rewrite app_nil_r.
  - cbn [mingw_try List.map]. rewrite run_subprocess_inherit.
    rewrite Hmissing. cbn [Z.eqb Pos.eqb]. rewrite IH.
    cbn [os_environ heap trace installed_packages conda_pkgs pip_pkgs].
    now rewrite <- app_assoc.
Qed.

(** ** The Conda alias that excludes a directive *)

(** C6: on the Conda backend, a directive whose Conda alias is the empty
    string leaves the loop body at once: the state is unchanged, so no child
    process is run, nothing is added to [installed_packages] and nothing is
    queued for the batched [conda install]. *)
Theorem conda_empty_alias_skipped (P : Platform) (W : World)
    (extra_index_url find_links : option (list string))
    (req : string) (s : state) :
  IS_CONDA P = true ->
  alias_for_conda (parse_req P W req) = Some "" ->
  process_req P W extra_index_url find_links req s = (inr tt, s).
Proof.
  intros Hconda Halias. unfold process_req. cbv zeta.
  destruct (negb (is_supported_platform P _ None)); [reflexivity|].
  destruct (match python_version _ with Some _ => _ | None => _ end);
    [reflexivity|].
  rewrite Hconda, Halias. reflexivity.
Qed.

(** The line [foo --conda=] on a Conda installation. *)
Lemma conda_empty_alias_skipped_witness :
  process_req conda_platform (world_const 0) None None "foo --conda=" state0
  = (inr tt, state0).
Proof.
  apply (conda_empty_alias_skipped conda_platform (world_const 0) None None
           "foo --conda=" state0); reflexivity.
Defined.

(** ** The second attempt of the pip block *)

(** C5: when the install of a directive with options exits with a status
    other than zero, the pip block runs the same command once more exactly
    when the interpreter is not a final release and the directive has no
    [--pre]; that second call is given [PIP_PRE=1] and
    [UV_PRERELEASE=allow], and it is the last call of the block.  In the
    other cases the failed call is the only one. *)
Theorem pip_retry_once (P : Platform) (W : World)
    (extra_index_url find_links : option (list string))
    (d : directive) (r : Requirement) (s : state) :
  let args := pip_single_args P extra_index_url find_links d r in
  let first := mkInvocation args (Some (first_env P (os_environ s) d)) in
  let retry := mkInvocation args (Some (allow_env P (os_environ s))) in
  list_truthy (pip_flags d r) = true ->
  returncode (subprocess_result W (trace s) first) <> 0%Z ->
  trace (snd (pip_stage P W extra_index_url find_links d r s))
  = trace s
    ++ first :: (if negb (IS_FINAL_VERSION P) && negb (pre_release d)
                 then [retry] else [])
  /\ allow_env P (os_environ s) !! "PIP_PRE" = Some "1"
  /\ allow_env P (os_environ s) !! "UV_PRERELEASE" = Some "allow".
Proof.
  intros args first retry Hflagged Hfail.
  rewrite pip_stage_spec. unfold pip_stage_result. cbv zeta.
  fold args. fold first. fold retry. rewrite Hflagged.
  apply Z.eqb_neq in Hfail. rewrite Hfail.
  split; [|split].
  - destruct (negb (IS_FINAL_VERSION P) && negb (pre_release d)); reflexivity.
  - unfold allow_env. rewrite lookup_insert_ne by discriminate.
    apply lookup_insert_eq.
  - unfold allow_env. apply lookup_insert_eq.
Qed.

(** [foo --no-deps] on a beta interpreter, with a pip that always fails:
    two calls. *)
Lemma pip_retry_once_witness :
  length
    (trace
       (snd (pip_stage preview_platform (world_const 1) None None
               (parse_req preview_platform (world_const 1) "foo --no-deps")
               (mkRequirement "foo" "foo") state0))) = 2.
Proof.
  rewrite (proj1 (pip_retry_once preview_platform (world_const 1) None None
             (parse_req preview_platform (world_const 1) "foo --no-deps")
             (mkRequirement "foo" "foo") state0
             eq_refl ltac:(vm_compute; discriminate))).
  reflexivity.
Defined.

(** ** A directive whose only flag is [--pre] *)

(** C1, at the line [foo --pre] on a plain Linux interpreter without
    [PIP_UPGRADE]: the directive has [pre_release] set, yet the loop runs no
    install for it and queues it in [pip_pkgs]; the only call is the batched
    one at the end, and its environment has neither [PIP_PRE] nor
    [UV_PRERELEASE]. *)
Theorem pre_only_directive_batched :
  let W := world_const 0 in
  let requires := RequiresList ["foo --pre"] in
  let after_loop :=
    snd ((reset_lists ;; requires_loop linux_platform W None None requires)
           state0) in
  let out := install_requirements linux_platform W None None requires state0 in
  pre_release (parse_req linux_platform W "foo --pre") = true
  /\ trace after_loop = []
  /\ pip_pkgs after_loop = ["foo"]
  /\ fst out = inr ["foo"]
  /\ List.map inv_args (trace (snd out))
     = [["/usr/bin/python3"; "-m"; "pip"; "install"; "foo"]]
  /\ List.map (fun inv =>
                 (fun e => (e !! "PIP_PRE", e !! "UV_PRERELEASE"))
                 <$> inv_env inv)
       (trace (snd out))
     = [Some (None, None)].
Proof. vm_compute. repeat split; reflexivity. Qed.

(** ** MSYS2: a directive that pacman could not install *)

(** C2 fails: on MSYS2, with pacman answering "not found" to every probe,
    the line [foo] is handed to pip after the two probes. *)
Lemma mingw_failure_reaches_pip :
  List.map inv_args
    (trace (snd (install_requirements mingw_platform (world_const 1)
                   None None (RequiresList ["foo"]) state0)))
  = [["pacman"; "--noconfirm"; "-Ss"; "mingw-w64-x86_64-python-foo"];
     ["pacman"; "--noconfirm"; "-Ss"; "mingw-w64-x86_64-foo"];
     ["/mingw64/bin/python"; "-m"; "pip"; "install"; "foo"]].
Proof. vm_compute. reflexivity. Qed.

(** C2, amended: on MSYS2, when the loop over the possible names ends
    without an install, the directive is not dropped: the turn goes on to
    the pip block with the requirement that was looked for, from the state
    that pacman left.  The calls of the turn are those of
    pacman followed by those of the pip block.  A directive with
    [--no-deps], [--only-binary], [--prefer-binary] or [--upgrade] is then
    installed by a pip call of its own, given its own dictionary, and is
    not queued; a directive with none of these and without [--pre] runs no
    pip call in the turn and is queued in [pip_pkgs] for the batched
    install. *)
Theorem mingw_failure_falls_through (P : Platform) (W : World)
    (extra_index_url find_links : option (list string))
    (req : string) (r : Requirement) (s : state) :
  let d := parse_req P W req in
  let probes := mingw_try P W (mingw_packages (name r)) s in
  let out := process_req P W extra_index_url find_links req s in
  IS_CONDA P = false ->
  IS_MINGW P = true ->
  passes_filters P W req = true ->
  mingw_requirement W d = Some r ->
  fst probes = inr false ->
  out = pip_stage P W extra_index_url find_links d r (snd probes)
  /\ (exists pacman_calls,
        trace (snd probes) = trace s ++ pacman_calls
        /\ Forall (inherit_call P) pacman_calls)
  /\ (no_deps d || only_binary d || prefer_binary d || upgrade d = true ->
      pip_pkgs (snd out) = pip_pkgs s
      /\ exists invs,
           trace (snd out)
           = trace (snd probes)
             ++ mkInvocation (pip_single_args P extra_index_url find_links d r)
                  (Some (first_env P (os_environ s) d)) :: invs)
  /\ (no_deps d || only_binary d || prefer_binary d || upgrade d = false ->
      pre_release d = false ->
      trace (snd out) = trace (snd probes)
      /\ pip_pkgs (snd out) = pip_pkgs s ++ [__str__ r]).
Proof.
  intros d probes out Hconda Hmingw Hpass Hreq Hfail.
  assert (Hgo : out = pip_stage P W extra_index_url find_links d r (snd probes)).
  { subst out. unfold process_req. cbv zeta. fold d.
    unfold passes_filters in Hpass. fold d in Hpass.
    apply andb_true_iff in Hpass as [Hplat Hpy].
    rewrite Hplat. cbn [negb]. apply negb_true_iff in Hpy. rewrite Hpy.
    rewrite Hconda, Hmingw.
    unfold mingw_requirement in Hreq. unfold mingw_stage.
    assert (Htry :
      ((mingw_try P W (mingw_packages (name r)) ≫=
         (fun installed : bool =>
            if installed then mret None else mret (Some r)))
       ≫= (fun r0 : option Requirement =>
             match r0 with
             | Some r1 => pip_stage P W extra_index_url find_links d r1
             | None => mret tt
             end)) s
      = pip_stage P W extra_index_url find_links d r (snd probes)).
    { unfold mbind at 1 2, M_bind. subst probes.
      destruct (mingw_try P W (mingw_packages (name r)) s) as [[e|b] s'];
        simpl in Hfail; [discriminate|].
      injection Hfail as ->. reflexivity. }
    destruct (alias_for_mingw d) as [alias|].
    - destruct (String.eqb alias ""); [discriminate|].
      injection Hreq as <-. exact Htry.
    - rewrite Hreq. exact Htry. }
  destruct (quiet_mingw_try P W (mingw_packages (name r)) s)
    as (Henv & _ & Hpip & _).
  fold probes in Henv, Hpip.
  split; [exact Hgo|]. rewrite Hgo.
  split.
  { destruct (grows_mingw_try P W (mingw_packages (name r)) s)
      as (_ & Ht & _). exact Ht. }
  split.
  - intros Hflag. rewrite <- Henv, <- Hpip.
    now apply pip_flagged_individually.
  - intros Hflag _. rewrite <- Hpip.
    now apply pip_unflagged_queued.
Qed.

(** The line [foo --no-deps] on MSYS2 when pacman finds nothing: two probes,
    then one call of pip. *)
Lemma mingw_failure_falls_through_witness :
  let d := parse_req mingw_platform (world_const 1) "foo --no-deps" in
  let r := mkRequirement "foo" "foo" in
  let probes :=
    mingw_try mingw_platform (world_const 1) (mingw_packages "foo") state0 in
  let out :=
    process_req mingw_platform (world_const 1) None None "foo --no-deps"
      state0 in
  pip_pkgs (snd out) = []
  /\ exists invs,
       trace (snd out)
       = trace (snd probes)
         ++ mkInvocation (pip_single_args mingw_platform None None d r)
              (Some (first_env mingw_platform ∅ d)) :: invs.
Proof.
  refine (proj1 (proj2 (proj2
    (mingw_failure_falls_through mingw_platform (world_const 1) None None
       "foo --no-deps" (mkRequirement "foo" "foo") state0
       _ _ _ _ _))) _);
    vm_compute; reflexivity.
Defined.

(** ** The loop body and the whole call, for any relation *)

Section Whole.

Context (P : Platform) (W : World).
Context (extra_index_url find_links : option (list string)).
Context (R : state -> state -> Prop).
Hypothesis R_refl : forall s, R s s.
Hypothesis R_trans : forall s1 s2 s3, R s1 s2 -> R s2 s3 -> R s1 s3.
Hypothesis R_quiet : forall s s', quiet s s' -> R s s'.

(** The loop body satisfies a relation that holds of the quiet steps and of
    the pip block for its directive. *)
Lemma process_req_always (req : string) :
  (forall r,
     always R (pip_stage P W extra_index_url find_links (parse_req P W req) r)) ->
  always R (process_req P W extra_index_url find_links req).
Proof.
  intros Hpip. unfold process_req. cbv zeta.
  destruct (negb (is_supported_platform P _ None)); [now apply always_ret|].
  destruct (match python_version _ with Some _ => _ | None => _ end);
    [now apply always_ret|].
  destruct (IS_CONDA P).
  - destruct (alias_for_conda _) as [alias|].
    + destruct (String.eqb alias ""); [now apply always_ret|].
      eapply always_impl; [exact R_quiet|apply quiet_conda_stage].
    + destruct (require _); [|now apply always_ret].
      eapply always_impl; [exact R_quiet|apply quiet_conda_stage].
  - apply always_bind; [exact R_trans| |].
    + destruct (IS_MINGW P); [|now apply always_ret].
      eapply always_impl; [exact R_quiet|apply quiet_mingw_stage].
    + intros [r|]; [apply Hpip|now apply always_ret].
Qed.

(** From the state in which the three lists are empty, the call satisfies a
    relation that holds of every turn of the loop and of the two batched
    installs. *)
Lemma install_requirements_always (requires : requires_arg) (s : state) :
  (forall req, always R (process_req P W extra_index_url find_links req)) ->
  always R (pip_batch P W extra_index_url find_links) ->
  R (snd (reset_lists s))
    (snd (install_requirements P W extra_index_url find_links requires s)).
Proof.
  intros Hreq Hpip.
  change (install_requirements P W extra_index_url find_links requires s)
    with ((requires_loop P W extra_index_url find_links requires;;
           pip_batch P W extra_index_url find_links;;
           conda_batch P W;;
           s1 ← get_state; mret (installed_packages s1))
            (snd (reset_lists s))).
  generalize (snd (reset_lists s)). change (forall s0, ?R0 s0 (snd (?m s0)))
    with (always R0 m).
  apply always_bind; [exact R_trans| |intros _].
  { apply always_for_; assumption. }
  apply always_bind; [exact R_trans|exact Hpip|intros _].
  apply always_bind; [exact R_trans| |intros _].
  { eapply always_impl; [exact R_quiet|apply quiet_conda_batch]. }
  apply always_bind; [exact R_trans|now apply always_get_state|intros s1].
  now apply always_ret.
Qed.

End Whole.

(** The line [foo --platform=] has the empty constraint and is skipped on
    Linux. *)
Example empty_platform_option_skipped :
  platform (parse_req linux_platform (world_const 0) "foo --platform=")
  = Some ""
  /\ process_req linux_platform (world_const 0) None None "foo --platform="
       state0 = (inr tt, state0).
Proof. vm_compute. split; reflexivity. Qed.

(** ** The environment of the pip calls *)

Section Environment.

Context (P : Platform) (W : World).
Context (extra_index_url find_links : option (list string)).

Lemma pip_stage_same_environ (d : directive) (r : Requirement) (s : state) :
  os_environ (snd (pip_stage P W extra_index_url find_links d r s))
  = os_environ s.
Proof.
  now destruct (grows_pip_stage P W extra_index_url find_links d r s).
Qed.

Lemma pip_batch_same_environ (s : state) :
  os_environ (snd (pip_batch P W extra_index_url find_links s))
  = os_environ s.
Proof.
  rewrite pip_batch_spec. unfold pip_batch_result. cbv zeta. cbn [snd].
  destruct (list_truthy (pip_pkgs s)); reflexivity.
Qed.

(** The calls of the pip block, one by one. *)
Lemma pip_stage_calls (d : directive) (r : Requirement) (s : state) :
  let E := os_environ s in
  let out := pip_stage P W extra_index_url find_links d r s in
  let args := pip_single_args P extra_index_url find_links d r in
  let first := mkInvocation args (Some (first_env P E d)) in
  let retry := mkInvocation args (Some (allow_env P E)) in
  (list_truthy (pip_flags d r) = false -> trace (snd out) = trace s)
  /\ (list_truthy (pip_flags d r) = true ->
      trace (snd out) = trace s ++ [first]
      \/ (pre_release d = false /\ trace (snd out) = trace s ++ [first; retry])).
Proof.
  intros E out args first retry. subst out. rewrite pip_stage_spec.
  unfold pip_stage_result. cbv zeta. fold E args first retry. cbn [snd].
  split; intros ->; [reflexivity|].
  destruct (returncode _ =? 0)%Z; [now left|].
  destruct (negb (IS_FINAL_VERSION P) && negb (pre_release d)) eqn:Hretry;
    [|now left].
  apply andb_true_iff in Hretry as [_ Hpre]. apply negb_true_iff in Hpre.
  now right.
Qed.

(** The call of the batched install. *)
Lemma pip_batch_calls (s : state) :
  trace (snd (pip_batch P W extra_index_url find_links s))
  = trace s
    ++ (if list_truthy (pip_pkgs s)
        then [mkInvocation
                (pip_batch_args P extra_index_url find_links (pip_pkgs s))
                (Some (base_env P (os_environ s)))]
        else []).
Proof.
  rewrite pip_batch_spec. unfold pip_batch_result. cbv zeta. cbn [snd].
  destruct (list_truthy (pip_pkgs s)); [reflexivity|].
  now rewrite app_nil_r.
Qed.

Lemma install_requirements_same_environ (requires : requires_arg) (s : state) :
  os_environ
    (snd (install_requirements P W extra_index_url find_links requires s))
  = os_environ s.
Proof.
  change (os_environ s) with (os_environ (snd (reset_lists s))).
  apply (install_requirements_always P W extra_index_url find_links
           same_environ).
  - reflexivity.
  - unfold same_environ. congruence.
  - now intros s1 s2 (He & _).
  - intros req s1.
    now destruct (grows_process_req P W extra_index_url find_links req s1).
  - intros s1. apply pip_batch_same_environ.
Qed.

(** The dictionaries given to pip are [os.environ] but for three keys. *)
Lemma env_other_keys (E : gmap string string) (d : directive) (k : string) :
  k <> "UV_PYTHON" -> k <> "PIP_PRE" -> k <> "UV_PRERELEASE" ->
  first_env P E d !! k = E !! k
  /\ allow_env P E !! k = E !! k
  /\ base_env P E !! k = E !! k.
Proof.
  intros H1 H2 H3.
  assert (Hbase : base_env P E !! k = E !! k).
  { unfold base_env. now apply lookup_insert_ne. }
  assert (Hexplicit : explicit_env P E !! k = E !! k).
  { unfold explicit_env. rewrite !lookup_insert_ne by congruence.
    exact Hbase. }
  split; [|split; [|exact Hbase]].
  - unfold first_env. now destruct (pre_release d).
  - unfold allow_env. rewrite !lookup_insert_ne by congruence. exact Hbase.
Qed.

End Environment.

(** C7: every pip call is given a dictionary of its own, copied from
    [os.environ].  The call as a whole leaves [os.environ] as it was.  The
    pip block leaves it as it was; when the directive has one of
    the options that make a command line, its calls are one install given
    the dictionary of the first attempt, [os.environ] with [UV_PYTHON] and,
    for a [--pre] directive only, the two pre-release variables, followed
    for a directive without [--pre] by at most one more given the
    dictionary of the second attempt; otherwise it runs nothing.  Every
    call of a turn of the loop is a call of conda or pacman without [env],
    or a pip call of that very directive with one of these two
    dictionaries, made from [os.environ] as it was before the call: nothing
    that an earlier turn set is in it.  The batched install is one call,
    given [os.environ] with [UV_PYTHON] and no pre-release variable.  The
    dictionaries agree with [os.environ] on every other key. *)
Theorem environment_private (P : Platform) (W : World)
    (extra_index_url find_links : option (list string)) :
  (forall requires s,
     os_environ
       (snd (install_requirements P W extra_index_url find_links requires s))
     = os_environ s)
  /\ (forall d r s,
        let E := os_environ s in
        let out := pip_stage P W extra_index_url find_links d r s in
        let args := pip_single_args P extra_index_url find_links d r in
        let first := mkInvocation args (Some (first_env P E d)) in
        let retry := mkInvocation args (Some (allow_env P E)) in
        os_environ (snd out) = E
        /\ (list_truthy (pip_flags d r) = false -> trace (snd out) = trace s)
        /\ (list_truthy (pip_flags d r) = true ->
            trace (snd out) = trace s ++ [first]
            \/ (pre_release d = false
                /\ trace (snd out) = trace s ++ [first; retry])))
  /\ (forall req s,
        let s' := snd (process_req P W extra_index_url find_links req s) in
        os_environ s' = os_environ s
        /\ exists invs,
             trace s' = trace s ++ invs
             /\ Forall (turn_call P extra_index_url find_links
                          (parse_req P W req) (os_environ s)) invs)
  /\ (forall s,
        let out := pip_batch P W extra_index_url find_links s in
        os_environ (snd out) = os_environ s
        /\ trace (snd out)
           = trace s
             ++ (if list_truthy (pip_pkgs s)
                 then [mkInvocation
                         (pip_batch_args P extra_index_url find_links
                            (pip_pkgs s))
                         (Some (base_env P (os_environ s)))]
                 else []))
  /\ (forall E d k,
        k <> "UV_PYTHON" -> k <> "PIP_PRE" -> k <> "UV_PRERELEASE" ->
        first_env P E d !! k = E !! k
        /\ allow_env P E !! k = E !! k
        /\ base_env P E !! k = E !! k)
  /\ (forall E d,
        pre_release d = false -> first_env P E d = base_env P E)
  /\ (forall E,
        base_env P E !! "PIP_PRE" = E !! "PIP_PRE"
        /\ base_env P E !! "UV_PRERELEASE" = E !! "UV_PRERELEASE").
Proof.
  split; [apply install_requirements_same_environ|].
  split.
  { intros d r s E out args first retry.
    split; [apply pip_stage_same_environ|].
    apply pip_stage_calls. }
  split.
  { intros req s s'.
    destruct (grows_process_req P W extra_index_url find_links req s)
      as (He & Ht & _).
    split; assumption. }
  split.
  { intros s out.
    split; [apply pip_batch_same_environ|apply pip_batch_calls]. }
  split; [intros E d k; apply env_other_keys|].
  split.
  { intros E d Hpre. unfold first_env. now rewrite Hpre. }
  intros E. unfold base_env.
  split; apply lookup_insert_ne; discriminate.
Qed.

(** On a pre-release interpreter whose installs all fail, the line
    [foo --no-deps] is tried twice, each time with a dictionary of its
    own. *)
Lemma environment_private_witness :
  let d := parse_req preview_platform (world_const 1) "foo --no-deps" in
  let r := mkRequirement "foo" "foo" in
  let args := pip_single_args preview_platform None None d r in
  let out := pip_stage preview_platform (world_const 1) None None d r state0 in
  trace (snd out) = [mkInvocation args (Some (first_env preview_platform ∅ d))]
  \/ (pre_release d = false
      /\ trace (snd out)
         = [mkInvocation args (Some (first_env preview_platform ∅ d));
            mkInvocation args (Some (allow_env preview_platform ∅))]).
Proof.
  refine (proj2 (proj2
    (proj1 (proj2 (environment_private preview_platform (world_const 1)
                     None None))
       (parse_req preview_platform (world_const 1) "foo --no-deps")
       (mkRequirement "foo" "foo") state0)) _).
  vm_compute. reflexivity.
Defined.

(** ** [PIP_UPGRADE] *)

Section Upgrade.

Context (P : Platform) (W : World).
Context (extra_index_url find_links : option (list string)).
Hypothesis PIP_UPGRADE_set : PIP_UPGRADE_truthy P = true.

Lemma parse_token_upgrade (d : directive) (req_data : string) :
  upgrade d = true -> upgrade (parse_token W d req_data) = true.
Proof.
  intros Hd. unfold parse_token.
  repeat match goal with
         | |- context [if ?b then _ else _] => destruct b
         end; simpl; auto.
Qed.

(** With [PIP_UPGRADE] set, every line is scanned with [upgrade] on. *)
Lemma parse_req_upgrade (req : string) :
  upgrade (parse_req P W req) = true.
Proof.
  unfold parse_req.
  assert (Hinit : upgrade (directive_init P) = true) by exact PIP_UPGRADE_set.
  revert Hinit. generalize (directive_init P).
  induction (split " " req) as [|tok toks IH]; intros d Hd; simpl; [exact Hd|].
  apply IH, parse_token_upgrade, Hd.
Qed.

Lemma pip_flags_upgrade (d : directive) (r : Requirement) :
  upgrade d = true ->
  list_truthy (pip_flags d r) = true /\ "--upgrade" ∈ pip_flags d r.
Proof.
  intros Hup. unfold pip_flags. rewrite Hup.
  destruct (no_deps d), (only_binary d), (prefer_binary d); simpl;
    (split; [reflexivity|]); repeat constructor.
Qed.

Lemma pip_single_args_upgrade (d : directive) (r : Requirement) :
  upgrade d = true ->
  "--upgrade" ∈ pip_single_args P extra_index_url find_links d r.
Proof.
  intros Hup. unfold pip_single_args.
  apply elem_of_app. right. apply elem_of_app. left.
  apply elem_of_app. left. now apply pip_flags_upgrade.
Qed.

Lemma pip_stage_upgrading (d : directive) (r : Requirement) :
  upgrade d = true ->
  always upgrading (pip_stage P W extra_index_url find_links d r).
Proof.
  intros Hup s Hnil. rewrite pip_stage_spec. unfold pip_stage_result.
  cbv zeta. cbn [snd].
  destruct (pip_flags_upgrade d r Hup) as [Hflagged Hin].
  rewrite Hflagged.
  assert (Hcall : forall e,
    upgrades (os_environ s)
      (mkInvocation (pip_single_args P extra_index_url find_links d r) e)).
  { intros e _. simpl. now apply pip_single_args_upgrade. }
  destruct (returncode _ =? 0)%Z;
    [|destruct (negb (IS_FINAL_VERSION P) && negb (pre_release d))];
    (split; [|exact Hnil]);
    (eapply extends_intro; simpl;
     [ reflexivity
     | reflexivity
     | repeat constructor; apply Hcall
     | first [reflexivity | symmetry; apply app_nil_r] ]).
Qed.

Lemma upgrading_refl (s : state) : upgrading s s.
Proof. intros Hnil. split; [apply extends_refl|exact Hnil]. Qed.

Lemma upgrading_trans (s1 s2 s3 : state) :
  upgrading s1 s2 -> upgrading s2 s3 -> upgrading s1 s3.
Proof.
  intros H12 H23 Hnil. destruct (H12 Hnil) as [He12 Hnil2].
  destruct (H23 Hnil2) as [He23 Hnil3].
  split; [eapply extends_trans; eassumption|exact Hnil3].
Qed.

Lemma quiet_upgrading (s s' : state) : quiet s s' -> upgrading s s'.
Proof.
  intros Hq Hnil. split.
  - apply quiet_extends; [|exact Hq]. intros E inv Hnone Hsome. congruence.
  - destruct Hq as (_ & _ & Hp & _). congruence.
Qed.

Lemma pip_batch_upgrading :
  always upgrading (pip_batch P W extra_index_url find_links).
Proof.
  intros s Hnil. rewrite pip_batch_spec. unfold pip_batch_result.
  rewrite Hnil. cbn [list_truthy snd].
  split; [apply extends_refl|exact Hnil].
Qed.

Lemma install_requirements_upgrading (requires : requires_arg) (s : state) :
  upgrading (snd (reset_lists s))
    (snd (install_requirements P W extra_index_url find_links requires s)).
Proof.
  apply install_requirements_always.
  - exact upgrading_refl.
  - exact upgrading_trans.
  - exact quiet_upgrading.
  - intros req. apply process_req_always.
    + exact upgrading_refl.
    + exact upgrading_trans.
    + exact quiet_upgrading.
    + intros r. apply pip_stage_upgrading, parse_req_upgrade.
  - exact pip_batch_upgrading.
Qed.

Lemma requires_loop_upgrading (requires : requires_arg) (s : state) :
  upgrading s (snd (requires_loop P W extra_index_url find_links requires s)).
Proof.
  revert s. change (always upgrading
    (requires_loop P W extra_index_url find_links requires)).
  apply always_for_; [exact upgrading_refl|exact upgrading_trans|].
  intros req. apply process_req_always.
  - exact upgrading_refl.
  - exact upgrading_trans.
  - exact quiet_upgrading.
  - intros r. apply pip_stage_upgrading, parse_req_upgrade.
Qed.

End Upgrade.

(** ** The order of the turns and of the outcome *)

Section Order.

Context (P : Platform) (W : World).
Context (extra_index_url find_links : option (list string)).

(** The loop meets every element of the set once. *)
Lemma processing_order_NoDup (requires : requires_arg) :
  NoDup (processing_order W requires).
Proof.
  unfold processing_order. rewrite (set_iter_perm W). apply NoDup_elements.
Qed.

Lemma elem_of_processing_order (requires : requires_arg) (req : string) :
  req ∈ processing_order W requires <-> req ∈ requires_set requires.
Proof.
  unfold processing_order. rewrite (set_iter_perm W). apply elem_of_elements.
Qed.

(** A loop that returns has made its turns one after the other, and has
    added to the trace and to the three lists what the turns added, in the
    order of the turns. *)
Lemma for_process_req_turns (l : list string) (s s' : state) :
  for_ l (process_req P W extra_index_url find_links) s = (inr tt, s') ->
  os_environ s' = os_environ s
  /\ exists added,
       turns P W extra_index_url find_links l s s' added
       /\ trace s' = trace s ++ concat (List.map added_calls added)
       /\ installed_packages s'
          = installed_packages s ++ concat (List.map added_ids added)
       /\ conda_pkgs s' = conda_pkgs s ++ concat (List.map added_conda added)
       /\ pip_pkgs s' = pip_pkgs s ++ concat (List.map added_pip added).
Proof.
  revert s. induction l as [|req l IH]; intros s Hrun.
  - injection Hrun as <-. split; [reflexivity|]. exists []. simpl.
    rewrite !app_nil_r. repeat split.
  - cbn [for_] in Hrun. unfold mbind, M_bind in Hrun.
    destruct (process_req P W extra_index_url find_links req s)
      as [[e|[]] s1] eqn:Hreq; [discriminate|].
    destruct (grows_process_req P W extra_index_url find_links req s)
      as (He & (invs & Ht & _) & (ids & Hi) & (cs & Hc) & (ps & Hp)).
    rewrite Hreq in He, Ht, Hi, Hc, Hp. cbn [snd] in He, Ht, Hi, Hc, Hp.
    destruct (IH s1 Hrun) as (He' & added & Hturns & Ht' & Hi' & Hc' & Hp').
    split; [congruence|].
    exists (mkTurnAdded invs ids cs ps :: added).
    cbn [turns List.map concat added_calls added_ids added_conda added_pip].
    split; [|repeat split].
    + exists s1. repeat split; assumption.
    + rewrite Ht', Ht. now rewrite app_assoc.
    + rewrite Hi', Hi. now rewrite app_assoc.
    + rewrite Hc', Hc. now rewrite app_assoc.
    + rewrite Hp', Hp. now rewrite app_assoc.
Qed.

(** The call, turn by turn. *)
Lemma install_requirements_run (requires : requires_arg) (s : state) :
  install_requirements P W extra_index_url find_links requires s
  = match for_ (processing_order W requires)
            (process_req P W extra_index_url find_links)
            (mkState (os_environ s) (heap s) (trace s) [] [] []) with
    | (inl e, s1) => (inl e, s1)
    | (inr _, s1) =>
        match conda_batch P W
                (pip_batch_result P W extra_index_url find_links s1) with
        | (inl e, s3) => (inl e, s3)
        | (inr _, s3) => (inr (installed_packages s3), s3)
        end
    end.
Proof.
  unfold install_requirements, requires_loop.
  unfold mbind at 1, M_bind at 1. unfold reset_lists at 1.
  unfold mbind at 1, M_bind at 1.
  destruct (for_ _ _ _) as [[e|[]] s1]; [reflexivity|].
  unfold mbind at 1, M_bind at 1. rewrite pip_batch_spec.
  unfold mbind at 1, M_bind at 1.
  destruct (conda_batch _ _ _) as [[e|[]] s3]; reflexivity.
Qed.

(** The two batched installs add their calls after those of the loop. *)
Lemma batches_trace (s1 : state) :
  exists invs,
    trace (conda_batch_result P W
             (pip_batch_result P W extra_index_url find_links s1))
    = trace s1 ++ invs.
Proof.
  unfold conda_batch_result, pip_batch_result. cbv zeta.
  destruct (list_truthy (pip_pkgs s1));
    cbn [conda_pkgs]; destruct (list_truthy (conda_pkgs s1)); cbn [trace];
    rewrite <- ?app_assoc; eauto.
  exists []. now rewrite app_nil_r.
Qed.

End Order.

(** ** The pip backend alone *)

Section PipBackend.

Context (P : Platform) (W : World).
Context (extra_index_url find_links : option (list string)).
Hypothesis not_conda : IS_CONDA P = false.
Hypothesis not_mingw : IS_MINGW P = false.

(** Neither on Conda nor on MSYS2, a turn of the loop is the pip block of
    the line, or nothing. *)
Lemma process_req_pip (req : string) (s : state) :
  process_req P W extra_index_url find_links req s
  = if passes_filters P W req then
      match require (parse_req P W req) with
      | Some r =>
          pip_stage P W extra_index_url find_links (parse_req P W req) r s
      | None => (inr tt, s)
      end
    else (inr tt, s).
Proof.
  unfold process_req, passes_filters. cbv zeta.
  destruct (is_supported_platform P _ None); cbn [negb andb];
    [|reflexivity].
  destruct (match python_version _ with Some _ => _ | None => _ end);
    cbn [negb]; [reflexivity|].
  rewrite not_conda, not_mingw, run_ret.
  destruct (require _); reflexivity.
Qed.

(** The loop returns, and every line that passes the filters, names a
    package and has an option that makes a command line has had its install
    run, with the dictionary of its first attempt. *)
Lemma requires_loop_flagged (l : list string) (s : state) :
  exists s',
    for_ l (process_req P W extra_index_url find_links) s = (inr tt, s')
    /\ os_environ s' = os_environ s
    /\ (exists invs, trace s' = trace s ++ invs)
    /\ forall req r,
         req ∈ l ->
         passes_filters P W req = true ->
         require (parse_req P W req) = Some r ->
         list_truthy (pip_flags (parse_req P W req) r) = true ->
         exists before after,
           trace s'
           = trace s ++ before
             ++ mkInvocation
                  (pip_single_args P extra_index_url find_links
                     (parse_req P W req) r)
                  (Some (first_env P (os_environ s) (parse_req P W req)))
                :: after.
Proof.
  revert s. induction l as [|req0 l IH]; intros s.
  - exists s. split; [reflexivity|]. split; [reflexivity|].
    split; [exists []; now rewrite app_nil_r|].
    intros req r Hin. inversion Hin.
  - assert (Hret : fst (process_req P W extra_index_url find_links req0 s)
                   = inr tt).
    { rewrite process_req_pip. destruct (passes_filters P W req0);
        [|reflexivity].
      destruct (require _); [now rewrite pip_stage_spec|reflexivity]. }
    destruct (grows_process_req P W extra_index_url find_links req0 s)
      as (He & (invs & Ht & _) & _).
    destruct (process_req P W extra_index_url find_links req0 s)
      as [[e|[]] s1] eqn:Hreq0; [discriminate|].
    cbn [snd] in He, Ht.
    destruct (IH s1) as (s' & Hrun & He' & (invs' & Ht') & Hall).
    exists s'. split; [|split; [congruence|split]].
    + cbn [for_]. unfold mbind, M_bind. rewrite Hreq0. exact Hrun.
    + exists (invs ++ invs'). rewrite Ht', Ht. now rewrite app_assoc.
    + intros req r Hin Hpass Hreq Hflag.
      apply elem_of_cons in Hin as [->|Hin].
      * rewrite process_req_pip, Hpass, Hreq in Hreq0.
        destruct (pip_stage_calls P W extra_index_url find_links
                    (parse_req P W req0) r s) as [_ Hcalls].
        rewrite Hreq0 in Hcalls. cbn [snd] in Hcalls.
        exists []. cbn [app].
        destruct (Hcalls Hflag) as [Hone|[_ Htwo]].
        -- exists invs'. rewrite Ht', Hone. now rewrite <- app_assoc.
        -- eexists. rewrite Ht', Htwo. rewrite <- app_assoc. reflexivity.
      * destruct (Hall req r Hin Hpass Hreq Hflag)
          as (before & after & Hbefore).
        exists (invs ++ before), after.
        rewrite Hbefore, Ht, He. now rewrite <- !app_assoc.
Qed.

(** The same of the call as a whole. *)
Lemma install_requirements_flagged (requires : requires_arg) (s : state) :
  let out := install_requirements P W extra_index_url find_links requires s in
  (exists result, fst out = inr result)
  /\ forall req r,
       req ∈ requires_set requires ->
       passes_filters P W req = true ->
       require (parse_req P W req) = Some r ->
       list_truthy (pip_flags (parse_req P W req) r) = true ->
       exists before after,
         trace (snd out)
         = trace s ++ before
           ++ mkInvocation
                (pip_single_args P extra_index_url find_links
                   (parse_req P W req) r)
                (Some (first_env P (os_environ s) (parse_req P W req)))
              :: after.
Proof.
  intros out. subst out. rewrite install_requirements_run.
  destruct (requires_loop_flagged (processing_order W requires)
              (mkState (os_environ s) (heap s) (trace s) [] [] []))
    as (s1 & Hrun & He & _ & Hall).
  rewrite Hrun, conda_batch_spec. cbn [fst snd].
  split; [eauto|].
  intros req r Hin Hpass Hreq Hflag.
  apply (elem_of_processing_order W) in Hin.
  destruct (Hall req r Hin Hpass Hreq Hflag) as (before & after & Ht).
  cbn [os_environ trace] in Ht.
  destruct (batches_trace P W extra_index_url find_links s1) as (invs & Hb).
  exists before, (after ++ invs). rewrite Hb, Ht.
  now rewrite <- !app_assoc.
Qed.

End PipBackend.

(** C9: [upgrade] starts from [PIP_UPGRADE].  When the variable was set to a
    non-empty string at start-up, every line is scanned with [upgrade] on;
    the pip block then runs an install of its own for the directive, with
    [--upgrade] among the arguments; nothing is left queued in [pip_pkgs]
    after the loop, and the batched install does nothing at all; every call
    of [install_requirements] that is given an environment, which the pip
    calls are, has [--upgrade] among its arguments.  Neither on Conda nor
    on MSYS2, a turn of the loop for a line that passes the filters and
    names a package is that pip block, and among the calls of the call as
    a whole is, for every such line of the input, the install of that line
    with [--upgrade]. *)
Theorem pip_upgrade_default (P : Platform) (W : World)
    (extra_index_url find_links : option (list string))
    (requires : requires_arg) (s : state) :
  PIP_UPGRADE_truthy P = true ->
  let after_loop :=
    snd ((reset_lists ;; requires_loop P W extra_index_url find_links requires)
           s) in
  let out := install_requirements P W extra_index_url find_links requires s in
  (forall req, upgrade (parse_req P W req) = true)
  /\ (forall req r s1,
        let d := parse_req P W req in
        let args := pip_single_args P extra_index_url find_links d r in
        "--upgrade" ∈ args
        /\ exists invs,
             trace (snd (pip_stage P W extra_index_url find_links d r s1))
             = trace s1
               ++ mkInvocation args (Some (first_env P (os_environ s1) d))
                  :: invs)
  /\ pip_pkgs after_loop = []
  /\ pip_batch P W extra_index_url find_links after_loop = (inr tt, after_loop)
  /\ (exists invs,
        trace (snd out) = trace s ++ invs
        /\ Forall (fun inv => inv_env inv <> None -> "--upgrade" ∈ inv_args inv)
                  invs)
  /\ (IS_CONDA P = false -> IS_MINGW P = false ->
      (forall req r s1,
         passes_filters P W req = true ->
         require (parse_req P W req) = Some r ->
         process_req P W extra_index_url find_links req s1
         = pip_stage P W extra_index_url find_links (parse_req P W req) r s1)
      /\ forall req r,
           req ∈ requires_set requires ->
           passes_filters P W req = true ->
           require (parse_req P W req) = Some r ->
           let d := parse_req P W req in
           let args := pip_single_args P extra_index_url find_links d r in
           "--upgrade" ∈ args
           /\ exists before after,
                trace (snd out)
                = trace s ++ before
                  ++ mkInvocation args (Some (first_env P (os_environ s) d))
                     :: after).
Proof.
  intros Hset after_loop out.
  split; [intros req; now apply parse_req_upgrade|].
  split.
  { intros req r s1 d args.
    pose proof (parse_req_upgrade P W Hset req) as Hup. fold d in Hup.
    split; [now apply pip_single_args_upgrade|].
    rewrite pip_stage_spec. unfold pip_stage_result. cbv zeta. fold args.
    rewrite (proj1 (pip_flags_upgrade d r Hup)).
    destruct (returncode _ =? 0)%Z;
      [|destruct (negb (IS_FINAL_VERSION P) && negb (pre_release d))];
      cbn [snd trace]; eauto. }
  assert (Hloop : pip_pkgs after_loop = []).
  { subst after_loop.
    change ((reset_lists ;; requires_loop P W extra_index_url find_links requires) s)
      with (requires_loop P W extra_index_url find_links requires
              (snd (reset_lists s))).
    now apply (requires_loop_upgrading P W extra_index_url find_links Hset
                 requires (snd (reset_lists s))). }
  split; [exact Hloop|]. split.
  { rewrite pip_batch_spec. unfold pip_batch_result. rewrite Hloop.
    reflexivity. }
  split.
  { destruct (install_requirements_upgrading P W extra_index_url find_links
                Hset requires s eq_refl) as [(_ & Ht & _) _].
    exact Ht. }
  intros Hconda Hmingw. split.
  { intros req r s1 Hpass Hreq.
    rewrite (process_req_pip P W extra_index_url find_links Hconda Hmingw).
    now rewrite Hpass, Hreq. }
  destruct (install_requirements_flagged P W extra_index_url find_links
              Hconda Hmingw requires s) as [_ Hall].
  intros req r Hin Hpass Hreq d args.
  pose proof (parse_req_upgrade P W Hset req) as Hup. fold d in Hup.
  split; [now apply pip_single_args_upgrade|].
  apply Hall; try assumption.
  now apply pip_flags_upgrade.
Qed.

(** A machine started with [PIP_UPGRADE=1]: the lines [foo] and
    [bar --no-deps] leave nothing queued, and the install of [foo], with
    [--upgrade], is among the calls. *)
Lemma pip_upgrade_default_witness :
  let P := upgrade_platform in
  let W := world_const 0 in
  let requires := RequiresList ["foo"; "bar --no-deps"] in
  let d := parse_req P W "foo" in
  let args := pip_single_args P None None d (mkRequirement "foo" "foo") in
  pip_pkgs (snd ((reset_lists ;; requires_loop P W None None requires) state0))
  = []
  /\ "--upgrade" ∈ args
  /\ exists before after,
       trace (snd (install_requirements P W None None requires state0))
       = before ++ mkInvocation args (Some (first_env P ∅ d)) :: after.
Proof.
  intros P W requires d args.
  pose proof (pip_upgrade_default P W None None requires state0 eq_refl)
    as (_ & _ & Hqueue & _ & _ & Hpip).
  split; [exact Hqueue|].
  destruct (Hpip eq_refl eq_refl) as (_ & Hall).
  apply (Hall "foo" (mkRequirement "foo" "foo")).
  - apply elem_of_list_to_set. repeat constructor.
  - vm_compute. reflexivity.
  - reflexivity.
Defined.

(** C4 fails: the two equal lines of [foo, foo] are not met one after the
    other, whatever the order in which the set is iterated. *)
Lemma duplicates_not_processed_twice :
  ~ exists W : World,
      processing_order W (RequiresList ["foo"; "foo"]) = ["foo"; "foo"].
Proof.
  intros [W Horder].
  pose proof (processing_order_NoDup W (RequiresList ["foo"; "foo"])) as Hnd.
  rewrite Horder in Hnd. apply NoDup_cons in Hnd as [Hnotin _].
  apply Hnotin. constructor.
Qed.

(** C4, amended: a list (or a comma-separated string) of requirement lines
    is first made a set, so the loop meets every distinct line exactly once,
    in the order in which that set is iterated.  When the call returns, the
    turns were made in that order, each from the state that the turn before
    left; the calls of the whole are those of the turns in that order, then
    the batched pip install when a turn queued a name for it, then the
    batched conda install when a turn queued a name for it; the list it
    returns is made of the identifiers recorded by the turns, in the same
    order, then the names queued for pip when their install exits with
    zero, then the names queued for conda when their install exits with
    zero. *)
Theorem outcome_follows_set_order (P : Platform) (W : World)
    (extra_index_url find_links : option (list string))
    (requires : requires_arg) (s : state) (result : list string) :
  let out := install_requirements P W extra_index_url find_links requires s in
  let order := processing_order W requires in
  fst out = inr result ->
  NoDup order
  /\ (forall req, req ∈ order <-> req ∈ requires_set requires)
  /\ exists added s_loop,
       turns P W extra_index_url find_links order
         (mkState (os_environ s) (heap s) (trace s) [] [] []) s_loop added
       /\ pip_pkgs s_loop = concat (List.map added_pip added)
       /\ conda_pkgs s_loop = concat (List.map added_conda added)
       /\ let pip_call :=
            mkInvocation
              (pip_batch_args P extra_index_url find_links (pip_pkgs s_loop))
              (Some (base_env P (os_environ s))) in
          let pip_calls :=
            if list_truthy (pip_pkgs s_loop) then [pip_call] else [] in
          let conda_call :=
            mkInvocation
              (conda_install P ++ ["--override-channels"; "-c"; "conda-forge"]
               ++ conda_pkgs s_loop) None in
          let conda_calls :=
            if list_truthy (conda_pkgs s_loop) then [conda_call] else [] in
          trace s_loop = trace s ++ concat (List.map added_calls added)
          /\ trace (snd out) = trace s_loop ++ pip_calls ++ conda_calls
          /\ result
             = concat (List.map added_ids added)
               ++ (if list_truthy (pip_pkgs s_loop)
                      && (returncode
                            (subprocess_result W (trace s_loop) pip_call)
                          =? 0)%Z
                   then pip_pkgs s_loop else [])
               ++ (if list_truthy (conda_pkgs s_loop)
                      && (returncode
                            (subprocess_result W (trace s_loop ++ pip_calls)
                               conda_call)
                          =? 0)%Z
                   then conda_pkgs s_loop else []).
Proof.
  intros out order Hret.
  split; [apply processing_order_NoDup|].
  split; [intros req; apply elem_of_processing_order|].
  subst out. rewrite install_requirements_run in *. fold order in Hret |- *.
  set (s0 := mkState (os_environ s) (heap s) (trace s) [] [] []) in *.
  destruct (for_ order (process_req P W extra_index_url find_links) s0)
    as [[e|[]] s1] eqn:Hloop; [discriminate|].
  destruct (for_process_req_turns P W extra_index_url find_links
              order s0 s1 Hloop)
    as (He & added & Hturns & Ht1 & Hi1 & Hc1 & Hp1).
  subst s0. cbn [os_environ trace installed_packages conda_pkgs pip_pkgs app]
    in He, Ht1, Hi1, Hc1, Hp1.
  rewrite conda_batch_spec in Hret |- *. cbn [fst snd] in Hret |- *.
  injection Hret as <-.
  exists added, s1. split; [exact Hturns|].
  split; [exact Hp1|]. split; [exact Hc1|].
  cbv zeta. split; [exact Ht1|].
  unfold conda_batch_result, pip_batch_result. cbv zeta. rewrite He.
  destruct (list_truthy (pip_pkgs s1));
    cbn [conda_pkgs trace installed_packages];
    destruct (list_truthy (conda_pkgs s1));
    cbn [trace installed_packages andb app];
    rewrite <- ?app_assoc, ?app_nil_r, Hi1;
    split; reflexivity.
Qed.

(** The list [foo, foo] on a plain Linux interpreter: one turn, which
    queues [foo]; one batched install; one identifier. *)
Lemma outcome_follows_set_order_witness :
  let out :=
    install_requirements linux_platform (world_const 0) None None
      (RequiresList ["foo"; "foo"]) state0 in
  NoDup (processing_order (world_const 0) (RequiresList ["foo"; "foo"]))
  /\ exists added s_loop,
       turns linux_platform (world_const 0) None None
         (processing_order (world_const 0) (RequiresList ["foo"; "foo"]))
         state0 s_loop added
       /\ pip_pkgs s_loop = concat (List.map added_pip added).
Proof.
  intros out.
  destruct (outcome_follows_set_order linux_platform (world_const 0) None None
              (RequiresList ["foo"; "foo"]) state0 ["foo"]
              ltac:(vm_compute; reflexivity))
    as (Hnd & _ & added & s_loop & Hturns & Hpip & _).
  split; [exact Hnd|]. exists added, s_loop. split; assumption.
Defined.

End BuildTestFacts.

(** * Properties of the further string operations *)

Module PyStrMoreFacts.

Import PyStr PyStrFacts PyStrMore BuildTest.

Lemma append_cons (x : ascii) (a b : string) :
  (String x a ++ b)%string = String x (a ++ b).
Proof. reflexivity. Qed.

Lemma append_assoc (a b c : string) :
  ((a ++ b) ++ c = a ++ (b ++ c))%string.
Proof.
  induction a as [|x a IH]; [reflexivity|].
  rewrite !append_cons. now rewrite IH.
Qed.

Lemma append_empty_r (a : string) : (a ++ "")%string = a.
Proof.
  induction a as [|x a IH]; [reflexivity|].
  rewrite append_cons. now rewrite IH.
Qed.

Lemma has_char_app (c : ascii) (a b : string) :
  has_char c (a ++ b) = has_char c a || has_char c b.
Proof.
  induction a as [|x a IH]; [reflexivity|].
  rewrite append_cons. cbn [has_char]. now rewrite IH, orb_assoc.
Qed.

Lemma rev_app (a b : string) : rev (a ++ b) = (rev b ++ rev a)%string.
Proof.
  induction a as [|x a IH].
  - cbn [rev]. now rewrite append_empty_r.
  - rewrite append_cons. cbn [rev]. now rewrite IH, append_assoc.
Qed.

Lemma rev_involutive (s : string) : rev (rev s) = s.
Proof.
  induction s as [|x s IH]; [reflexivity|].
  cbn [rev]. rewrite rev_app, IH. reflexivity.
Qed.

Lemma has_char_rev (c : ascii) (s : string) :
  has_char c (rev s) = has_char c s.
Proof.
  induction s as [|x s IH]; [reflexivity|].
  cbn [rev has_char]. rewrite has_char_app, IH. cbn [has_char].
  rewrite orb_false_r. apply orb_comm.
Qed.

Lemma has_char_remove_same (a : ascii) (s : string) :
  has_char a (remove_char a s) = false.
Proof.
  induction s as [|x s IH]; [reflexivity|]. cbn [remove_char].
  destruct (Ascii.eqb x a) eqn:Hx; [exact IH|].
  cbn [has_char]. now rewrite Hx.
Qed.

Lemma has_char_replace_same (a b : ascii) (s : string) :
  a <> b -> has_char a (replace_char a b s) = false.
Proof.
  intros Hne. induction s as [|x s IH]; [reflexivity|].
  cbn [replace_char has_char]. rewrite IH, orb_false_r.
  destruct (Ascii.eqb_spec x a) as [->|Hx].
  - apply Ascii.eqb_neq. congruence.
  - now apply Ascii.eqb_neq.
Qed.

Lemma has_char_replace_other (c a b : ascii) (s : string) :
  c <> b -> has_char c s = false -> has_char c (replace_char a b s) = false.
Proof.
  intros Hne. induction s as [|x s IH]; [reflexivity|].
  cbn [replace_char has_char]. intros H. apply orb_false_iff in H as [Hx Hs].
  rewrite (IH Hs), orb_false_r.
  destruct (Ascii.eqb x a); [|exact Hx].
  apply Ascii.eqb_neq. congruence.
Qed.

(** [split(sep, 1)] cuts at the first separator. *)
Lemma split_once_spec (sep : ascii) (s : string) :
  (has_char sep s = false /\ split_once sep s = [s])
  \/ (exists a b, s = (a ++ String sep b)%string
                 /\ has_char sep a = false
                 /\ split_once sep s = [a; b]).
Proof.
  induction s as [|x s IH]; [left; split; reflexivity|].
  cbn [split_once has_char].
  destruct (Ascii.eqb_spec x sep) as [->|Hne].
  - right. exists "", s. repeat split.
  - apply Ascii.eqb_neq in Hne.
    destruct IH as [[Hno ->]|(a & b & -> & Hno & ->)].
    + left. rewrite Hno. split; reflexivity.
    + right. exists (String x a), b. rewrite append_cons.
      repeat split. cbn [has_char]. now rewrite Hne, Hno.
Qed.

(** Joining what [rsplit(sep, 1)] returns removes the last separator. *)
Lemma join_rsplit_once (sep : ascii) (s : string) :
  (has_char sep s = false /\ join "" (rsplit_once sep s) = s)
  \/ (exists x y, s = (x ++ String sep y)%string
                 /\ has_char sep y = false
                 /\ join "" (rsplit_once sep s) = (x ++ y)%string).
Proof.
  unfold rsplit_once.
  destruct (split_once_spec sep (rev s)) as [[Hno ->]|(a & b & Hs & Hno & ->)].
  - left. rewrite has_char_rev in Hno. split; [exact Hno|].
    cbn. apply rev_involutive.
  - right. exists (rev b), (rev a).
    apply (f_equal rev) in Hs. rewrite rev_involutive, rev_app in Hs.
    cbn [rev] in Hs. rewrite append_assoc in Hs.
    split; [exact Hs|]. split; [now rewrite has_char_rev|reflexivity].
Qed.

Lemma split_second_None (sep : ascii) (s : string) :
  split sep s !! 1%nat = None <-> has_char sep s = false.
Proof.
  split.
  - induction s as [|x s IH]; [reflexivity|].
    cbn [split has_char]. destruct (Ascii.eqb x sep).
    + destruct (split_cons sep s) as (w & ws & ->). discriminate.
    + destruct (split_cons sep s) as (w & ws & Hs). rewrite Hs in *.
      exact IH.
  - intros Hno. now rewrite split_single_no_sep.
Qed.

Lemma startswith_bang (t : string) :
  startswith "!" t = true -> t = ("!" ++ drop 1 t)%string.
Proof.
  destruct t as [|c t]; cbn [startswith]; [discriminate|].
  rewrite andb_true_r. intros H. apply Ascii.eqb_eq in H. subst c.
  reflexivity.
Qed.

Lemma startswith_app (p t : string) :
  startswith p t = true -> t = (p ++ drop (String.length p) t)%string.
Proof.
  revert t. induction p as [|a p IH]; intros t; [reflexivity|].
  destruct t as [|b t]; cbn [startswith]; [discriminate|].
  intros H. apply andb_true_iff in H as [Hab Hp].
  apply Ascii.eqb_eq in Hab. subst b. cbn [String.length drop].
  change (String a t = String a (p ++ drop (String.length p) t)%string).
  f_equal. now apply IH.
Qed.

End PyStrMoreFacts.

(** * Further properties of [VersionInfo.__init__] *)

Module WinVersionInfoMoreFacts.

Import PyStr PyStrFacts PyStrMoreFacts WinVersionInfo WinVersionInfoFacts.
Import BuildTestMore.

Lemma stored_parts (v : string) :
  let parts := split "." v in
  split "." (join "." (pad_parts parts))
  = parts ++ replicate (4 - length parts) "0".
Proof.
  intros parts. rewrite pad_parts_spec. apply split_join.
  - subst parts. destruct (split_cons "." v) as (w & ws & ->). discriminate.
  - apply Forall_app. split; [apply split_no_sep|apply Forall_replicate_zero].
Qed.

(** X14: the normal form is stable: a version that [VersionInfo] stored is
    stored unchanged when it is given to [VersionInfo] again. *)
Theorem version_normalization_idempotent (v : string)
    (internal_name original_filename comments company description
     copyright trademarks product : option string)
    (dll debug : option bool) (verbose : bool) :
  let stored :=
    version (__init__ v internal_name original_filename comments company
               description copyright trademarks product dll debug verbose) in
  version (__init__ stored internal_name original_filename comments company
             description copyright trademarks product dll debug verbose)
  = stored.
Proof.
  intros stored. subst stored. unfold __init__. cbn [version].
  rewrite stored_parts. rewrite (pad_parts_spec (_ ++ _)).
  rewrite length_app, length_replicate.
  replace (4 - (length (split "." v) + (4 - length (split "." v)))) with 0
    by lia.
  cbn [replicate]. rewrite app_nil_r. rewrite <- stored_parts.
  apply join_split.
Qed.

Lemma join_snoc (parts : list string) (w : string) :
  parts <> [] ->
  join "." (parts ++ [w]) = (join "." parts ++ "." ++ w)%string.
Proof.
  induction parts as [|p [|q ps] IH]; intros Hne; [congruence|reflexivity|].
  change ((p :: q :: ps) ++ [w]) with (p :: (q :: ps) ++ [w]).
  cbn [app]. rewrite !join_cons. cbn [app] in IH. rewrite IH by discriminate.
  rewrite !append_assoc. reflexivity.
Qed.

Lemma join_pad (parts : list string) (k : nat) :
  parts <> [] ->
  join "." (parts ++ replicate k "0")
  = (join "." parts ++ zeros_suffix k)%string.
Proof.
  revert parts. induction k as [|k IH]; intros parts Hne.
  - cbn. rewrite app_nil_r. now rewrite append_empty_r.
  - change (replicate (S k) "0") with (["0"] ++ replicate k "0").
    rewrite app_assoc, IH by (destruct parts; discriminate).
    rewrite join_snoc by assumption. cbn [zeros_suffix].
    rewrite !append_assoc. reflexivity.
Qed.

(** X15: normalization only appends: the stored version is the version
    given, followed by one [.0] for each part that is missing to make four.
    The version given is never rewritten; the empty version is stored as
    three times [.0]. *)
Theorem version_only_appended (v : string)
    (internal_name original_filename comments company description
     copyright trademarks product : option string)
    (dll debug : option bool) (verbose : bool) :
  version (__init__ v internal_name original_filename comments company
             description copyright trademarks product dll debug verbose)
  = (v ++ zeros_suffix (4 - length (split "." v)))%string.
Proof.
  unfold __init__. cbn [version]. rewrite pad_parts_spec.
  rewrite join_pad.
  - now rewrite join_split.
  - destruct (split_cons "." v) as (w & ws & ->). discriminate.
Qed.

End WinVersionInfoMoreFacts.

(** * Further properties of [ci/build_test.py] *)

Module BuildTestMoreFacts.

Import PyStr PyStrFacts PyStrMore PyStrMoreFacts.
Import BuildTest BuildTestMore BuildTestFacts.

(** ** The platform filter, tag by tag *)

Lemma set_truthy_false (X : gset string) : set_truthy X = false <-> X = ∅.
Proof.
  unfold set_truthy. rewrite negb_false_iff, bool_decide_eq_true. reflexivity.
Qed.

Lemma elem_of_platform_yes (l : list string) (p : string) :
  p ∈ platform_yes l <-> p ∈ l /\ startswith "!" p = false.
Proof.
  unfold platform_yes. rewrite elem_of_list_to_set, list_elem_of_In, filter_In.
  rewrite negb_true_iff, <- list_elem_of_In. reflexivity.
Qed.

Lemma elem_of_platform_not (l : list string) (p : string) :
  p ∈ platform_not l <-> ("!" ++ p)%string ∈ l.
Proof.
  unfold platform_not. rewrite elem_of_list_to_set, list_elem_of_In, in_map_iff.
  split.
  - intros (t & Hdrop & Hin). apply filter_In in Hin as [Hin Hbang].
    apply startswith_bang in Hbang. rewrite Hdrop in Hbang. subst t.
    now apply list_elem_of_In.
  - intros Hin. exists ("!" ++ p)%string. split; [reflexivity|].
    apply filter_In. split; [now apply list_elem_of_In|reflexivity].
Qed.

(** The answer for a list of tags that is not empty. *)
Lemma is_supported_platform_list (P : Platform) (l : list string) (p : string) :
  l <> [] ->
  is_supported_platform P (PlatformList l) (Some p)
  = bool_decide
      (p ∈ (if set_truthy (platform_yes l) then platform_yes l
            else platform_universe)
       /\ ("!" ++ p)%string ∉ l).
Proof.
  intros Hne. unfold is_supported_platform. destruct l as [|t l]; [congruence|].
  fold (platform_yes (t :: l)). fold (platform_not (t :: l)).
  fold platform_universe.
  apply bool_decide_ext.
  destruct (set_truthy (platform_not (t :: l))) eqn:Hnot.
  - rewrite elem_of_difference, elem_of_platform_not. reflexivity.
  - apply set_truthy_false in Hnot.
    split; [|tauto].
    intros H. split; [exact H|].
    rewrite <- elem_of_platform_not, Hnot. set_solver.
Qed.

(** X1: a platform that the constraint excludes is not supported, whatever
    else the constraint lists, the platform itself included. *)
Theorem excluded_platform_unsupported (P : Platform) (l : list string)
    (p : string) :
  ("!" ++ p)%string ∈ l ->
  is_supported_platform P (PlatformList l) (Some p) = false.
Proof.
  intros Hin. rewrite is_supported_platform_list.
  - apply bool_decide_eq_false. tauto.
  - intros ->. inversion Hin.
Qed.

Lemma excluded_platform_unsupported_witness :
  is_supported_platform linux_platform
    (PlatformList ["linux"; "!linux"]) (Some "linux") = false.
Proof.
  apply (excluded_platform_unsupported linux_platform ["linux"; "!linux"]
           "linux").
  repeat constructor.
Defined.

(** X2: when no tag of a constraint that is not empty starts with [!], the
    supported platforms are exactly the tags listed: the list replaces the
    four known platforms, it is not added to them. *)
Theorem inclusion_replaces_universe (P : Platform) (l : list string)
    (p : string) :
  l <> [] ->
  Forall (fun t => startswith "!" t = false) l ->
  is_supported_platform P (PlatformList l) (Some p) = bool_decide (p ∈ l).
Proof.
  intros Hne Hall. rewrite is_supported_platform_list by assumption.
  rewrite Forall_forall in Hall.
  assert (Hyes : forall q, q ∈ platform_yes l <-> q ∈ l).
  { intros q. rewrite elem_of_platform_yes. split; [tauto|].
    intros Hq. split; [exact Hq|]. now apply Hall. }
  assert (Htruthy : set_truthy (platform_yes l) = true).
  { destruct l as [|t l]; [congruence|].
    unfold set_truthy. apply negb_true_iff, bool_decide_eq_false.
    intros Hempty. assert (Ht : t ∈ platform_yes (t :: l)).
    { apply Hyes. constructor. }
    rewrite Hempty in Ht. set_solver. }
  rewrite Htruthy. apply bool_decide_ext. rewrite Hyes.
  split; [tauto|]. intros Hp. split; [exact Hp|].
  intros Hbang. apply Hall in Hbang. discriminate.
Qed.

Lemma inclusion_replaces_universe_witness :
  is_supported_platform linux_platform (PlatformList ["macos"; "linux"])
    (Some "windows") = bool_decide ("windows" ∈ ["macos"; "linux"]).
Proof.
  apply (inclusion_replaces_universe linux_platform ["macos"; "linux"]
           "windows"); [discriminate|repeat constructor].
Defined.

(** X3: when every tag of a constraint that is not empty starts with [!],
    the supported platforms are the four known ones less the excluded
    ones. *)
Theorem exclusion_subtracts_from_universe (P : Platform) (l : list string)
    (p : string) :
  l <> [] ->
  Forall (fun t => startswith "!" t = true) l ->
  is_supported_platform P (PlatformList l) (Some p)
  = bool_decide (p ∈ ["linux"; "macos"; "mingw"; "windows"])
    && negb (bool_decide (("!" ++ p)%string ∈ l)).
Proof.
  intros Hne Hall. rewrite is_supported_platform_list by assumption.
  rewrite Forall_forall in Hall.
  assert (Hyes : platform_yes l = ∅).
  { apply set_eq. intros q. rewrite elem_of_platform_yes.
    split; [|set_solver]. intros [Hq Hno].
    apply Hall in Hq. congruence. }
  rewrite Hyes.
  replace (set_truthy (∅ : gset string)) with false
    by (symmetry; now apply set_truthy_false).
  destruct (bool_decide (("!" ++ p)%string ∈ l)) eqn:Hex.
  - rewrite andb_false_r. apply bool_decide_eq_false.
    apply bool_decide_eq_true in Hex. tauto.
  - rewrite andb_true_r. apply bool_decide_ext.
    apply bool_decide_eq_false in Hex.
    unfold platform_universe.
    rewrite !elem_of_union, !elem_of_singleton, !elem_of_cons, elem_of_nil.
    tauto.
Qed.

Lemma exclusion_subtracts_from_universe_witness :
  is_supported_platform linux_platform (PlatformList ["!windows"])
    (Some "mingw")
  = bool_decide ("mingw" ∈ ["linux"; "macos"; "mingw"; "windows"])
    && negb (bool_decide ("!mingw" ∈ ["!windows"])).
Proof.
  apply (exclusion_subtracts_from_universe linux_platform ["!windows"]
           "mingw"); [discriminate|repeat constructor].
Defined.

(** ** The scan of a requirement line *)

(** The cases of the scan of token [t], first branch first. *)
Ltac scan_cases t :=
  destruct (startswith "--conda=" t); [reflexivity|];
  destruct (startswith "--mingw=" t); [reflexivity|];
  destruct (String.eqb t "--no-deps"); [reflexivity|];
  destruct (startswith "--platform=" t); [reflexivity|];
  destruct (startswith "--python-version" t); [reflexivity|];
  destruct (String.eqb t "--only-binary"); [reflexivity|];
  destruct (String.eqb t "--pre"); [reflexivity|];
  destruct (String.eqb t "--prefer-binary"); [reflexivity|];
  destruct (String.eqb t "--upgrade"); [reflexivity|].

Section Scan.

Context (P : Platform) (W : World).

(** What a token does to [require]. *)
Lemma parse_token_require (d : directive) (t : string) :
  require (parse_token W d t)
  = if is_bare_token t then Some (Requirement_class W t) else require d.
Proof.
  unfold parse_token, is_bare_token, is_option_token.
  scan_cases t. destruct (truthy t); reflexivity.
Qed.

(** What a token does to the five flags. *)
Lemma parse_token_flags (d : directive) (t : string) :
  no_deps (parse_token W d t) = no_deps d || String.eqb t "--no-deps"
  /\ only_binary (parse_token W d t)
     = only_binary d || String.eqb t "--only-binary"
  /\ pre_release (parse_token W d t) = pre_release d || String.eqb t "--pre"
  /\ prefer_binary (parse_token W d t)
     = prefer_binary d || String.eqb t "--prefer-binary"
  /\ upgrade (parse_token W d t) = upgrade d || String.eqb t "--upgrade".
Proof.
  unfold parse_token.
  destruct (String.eqb_spec t "--no-deps") as [->|_];
    [cbn; rewrite !orb_false_r, orb_true_r; auto|].
  destruct (String.eqb_spec t "--only-binary") as [->|_];
    [cbn; rewrite !orb_false_r, orb_true_r; auto|].
  destruct (String.eqb_spec t "--pre") as [->|_];
    [cbn; rewrite !orb_false_r, orb_true_r; auto|].
  destruct (String.eqb_spec t "--prefer-binary") as [->|_];
    [cbn; rewrite !orb_false_r, orb_true_r; auto|].
  destruct (String.eqb_spec t "--upgrade") as [->|_];
    [cbn; rewrite !orb_false_r, orb_true_r; auto|].
  rewrite !orb_false_r.
  destruct (startswith "--conda=" t); [auto|].
  destruct (startswith "--mingw=" t); [auto|].
  destruct (startswith "--platform=" t); [auto|].
  destruct (startswith "--python-version" t); [auto|].
  destruct (truthy t); auto.
Qed.


(** What a token does to the options that carry a value. *)
Lemma parse_token_values (d : directive) (t : string) :
  alias_for_conda (parse_token W d t)
  = (if startswith "--conda=" t then Some (drop 8 t) else alias_for_conda d)
  /\ alias_for_mingw (parse_token W d t)
     = (if startswith "--mingw=" t then Some (drop 8 t)
        else alias_for_mingw d)
  /\ platform (parse_token W d t)
     = (if startswith "--platform=" t
        then Some (hd "" (split "=" (drop 11 t)))
        else platform d)
  /\ python_version (parse_token W d t)
     = (if startswith "--python-version" t then Some (drop 16 t)
        else python_version d).
Proof.
  unfold parse_token.
  destruct (startswith "--conda=" t) eqn:Hconda.
  { apply startswith_app in Hconda. cbn [String.length] in Hconda.
    remember (drop 8 t) as v eqn:Hv. clear Hv. subst t.
    repeat split; reflexivity. }
  destruct (startswith "--mingw=" t) eqn:Hmingw.
  { apply startswith_app in Hmingw. cbn [String.length] in Hmingw.
    remember (drop 8 t) as v eqn:Hv. clear Hv. subst t.
    repeat split; reflexivity. }
  destruct (String.eqb_spec t "--no-deps") as [->|_];
    [repeat split; reflexivity|].
  destruct (startswith "--platform=" t) eqn:Hplatform.
  { apply startswith_app in Hplatform. cbn [String.length] in Hplatform.
    remember (drop 11 t) as v eqn:Hv. clear Hv. subst t.
    repeat split; try reflexivity.
    cbn [platform].
    change ("--platform=" ++ v)%string
      with ("--platform" ++ String "=" v)%string.
    rewrite split_app_no_sep by reflexivity.
    destruct (split "=" v); reflexivity. }
  destruct (startswith "--python-version" t) eqn:Hpython;
    [repeat split; reflexivity|].
  destruct (String.eqb t "--only-binary"); [repeat split; reflexivity|].
  destruct (String.eqb t "--pre"); [repeat split; reflexivity|].
  destruct (String.eqb t "--prefer-binary"); [repeat split; reflexivity|].
  destruct (String.eqb t "--upgrade"); [repeat split; reflexivity|].
  destruct (truthy t); repeat split; reflexivity.
Qed.

(** A field that a token either sets or leaves has, after a scan, the
    value that the last token setting it gives. *)
Lemma scan_last {A : Type} (f : directive -> option A)
    (sel : string -> bool) (val : string -> A) :
  (forall d t, f (parse_token W d t) = if sel t then Some (val t) else f d) ->
  forall toks d,
    f (fold_left (parse_token W) toks d)
    = match list.last (List.filter sel toks) with
      | Some t => Some (val t)
      | None => f d
      end.
Proof.
  intros Hstep toks. induction toks as [|t toks IH]; intros d; [reflexivity|].
  cbn [fold_left List.filter]. rewrite IH, Hstep.
  destruct (sel t); [|reflexivity].
  rewrite last_cons. destruct (list.last (List.filter sel toks)); reflexivity.
Qed.

(** A flag is on after a scan when it was on before or its token is among
    those scanned. *)
Lemma scan_flag (f : directive -> bool) (flag : string) :
  (forall d t, f (parse_token W d t) = f d || String.eqb t flag) ->
  forall toks d,
    f (fold_left (parse_token W) toks d) = f d || bool_decide (flag ∈ toks).
Proof.
  intros Hstep toks. induction toks as [|t toks IH]; intros d.
  - cbn. rewrite bool_decide_eq_false_2 by (apply not_elem_of_nil).
    now rewrite orb_false_r.
  - cbn [fold_left]. rewrite IH, Hstep, <- orb_assoc. f_equal.
    destruct (String.eqb_spec t flag) as [->|Hne].
    + rewrite (bool_decide_eq_true_2 (flag ∈ flag :: toks)) by constructor.
      reflexivity.
    + cbn. apply bool_decide_ext. rewrite elem_of_cons. split; [tauto|].
      intros [->|H]; [congruence|exact H].
Qed.

End Scan.

(** X4: each of the five flags of a directive is on exactly when its token
    is one of the tokens of the line, wherever it stands; [upgrade] is on as
    well when [PIP_UPGRADE] was set.  The order of the tokens does not
    count. *)
Theorem parse_req_flags (P : Platform) (W : World) (req : string) :
  let toks := split " " req in
  no_deps (parse_req P W req) = bool_decide ("--no-deps" ∈ toks)
  /\ only_binary (parse_req P W req) = bool_decide ("--only-binary" ∈ toks)
  /\ pre_release (parse_req P W req) = bool_decide ("--pre" ∈ toks)
  /\ prefer_binary (parse_req P W req)
     = bool_decide ("--prefer-binary" ∈ toks)
  /\ upgrade (parse_req P W req)
     = PIP_UPGRADE_truthy P || bool_decide ("--upgrade" ∈ toks).
Proof.
  intros toks. unfold parse_req. fold toks.
  repeat split.
  - rewrite (scan_flag W no_deps "--no-deps")
      by (intros d t; apply parse_token_flags).
    reflexivity.
  - rewrite (scan_flag W only_binary "--only-binary")
      by (intros d t; apply parse_token_flags).
    reflexivity.
  - rewrite (scan_flag W pre_release "--pre")
      by (intros d t; apply parse_token_flags).
    reflexivity.
  - rewrite (scan_flag W prefer_binary "--prefer-binary")
      by (intros d t; apply parse_token_flags).
    reflexivity.
  - rewrite (scan_flag W upgrade "--upgrade")
      by (intros d t; apply parse_token_flags).
    reflexivity.
Qed.

(** X5: with the class that stands in for [packaging]'s, the requirement of
    a line is its last token that is not an option and not empty, taken as
    it is; a line without such a token has none. *)
Theorem parse_req_last_requirement (P : Platform) (W : World) (req : string) :
  packaging_requirements W = None ->
  require (parse_req P W req)
  = (fun req_data => mkRequirement req_data req_data)
    <$> list.last (List.filter is_bare_token (split " " req)).
Proof.
  intros Hnone. unfold parse_req.
  rewrite (scan_last W require is_bare_token (Requirement_class W)
             (parse_token_require W)).
  unfold Requirement_class. rewrite Hnone.
  destruct (list.last _); reflexivity.
Qed.

(** The line [foo --no-deps bar] asks for [bar]. *)
Lemma parse_req_last_requirement_witness :
  require (parse_req linux_platform (world_const 0) "foo --no-deps bar")
  = Some (mkRequirement "bar" "bar").
Proof.
  apply (parse_req_last_requirement linux_platform (world_const 0)
           "foo --no-deps bar").
  reflexivity.
Defined.

(** X6: an option that carries a value has, after the scan, the value of
    its last occurrence.  The Conda alias, the MSYS2 alias and the Python
    version are the whole text after the option name, empty when nothing
    follows; the platform is that text up to its first [=]. *)
Theorem parse_req_option_values (P : Platform) (W : World) (req : string) :
  let toks := split " " req in
  alias_for_conda (parse_req P W req)
  = drop 8 <$> list.last (List.filter (startswith "--conda=") toks)
  /\ alias_for_mingw (parse_req P W req)
     = drop 8 <$> list.last (List.filter (startswith "--mingw=") toks)
  /\ platform (parse_req P W req)
     = (fun t => hd "" (split "=" (drop 11 t)))
       <$> list.last (List.filter (startswith "--platform=") toks)
  /\ python_version (parse_req P W req)
     = drop 16 <$> list.last (List.filter (startswith "--python-version") toks).
Proof.
  intros toks. unfold parse_req. fold toks.
  repeat split.
  - rewrite (scan_last W alias_for_conda (startswith "--conda=") (drop 8))
      by (intros d t; apply parse_token_values).
    destruct (list.last _); reflexivity.
  - rewrite (scan_last W alias_for_mingw (startswith "--mingw=") (drop 8))
      by (intros d t; apply parse_token_values).
    destruct (list.last _); reflexivity.
  - rewrite (scan_last W platform (startswith "--platform=")
               (fun t => hd "" (split "=" (drop 11 t))))
      by (intros d t; apply parse_token_values).
    destruct (list.last _); reflexivity.
  - rewrite (scan_last W python_version (startswith "--python-version")
               (drop 16))
      by (intros d t; apply parse_token_values).
    destruct (list.last _); reflexivity.
Qed.

(** ** Lines that do nothing *)

(** X12: a line leaves the state as it is, with no child process, nothing
    recorded and nothing queued, when it fails the platform or the Python
    filter, when it names no package and gives no alias, or, on MSYS2, when
    its MSYS2 alias is empty. *)
Theorem skipped_line_changes_nothing (P : Platform) (W : World)
    (extra_index_url find_links : option (list string))
    (req : string) (s : state) :
  let d := parse_req P W req in
  passes_filters P W req = false
  \/ (require d = None /\ alias_for_conda d = None
      /\ alias_for_mingw d = None)
  \/ (IS_CONDA P = false /\ IS_MINGW P = true
      /\ alias_for_mingw d = Some "") ->
  process_req P W extra_index_url find_links req s = (inr tt, s).
Proof.
  intros d Hskip. unfold process_req, passes_filters in *. cbv zeta.
  fold d in Hskip |- *.
  destruct (is_supported_platform P (platform_of d) None); [|reflexivity].
  cbn [negb andb] in *.
  destruct (match python_version d with Some _ => _ | None => _ end);
    [reflexivity|].
  destruct Hskip as [Hskip|[(Hreq & Hconda & Hmingw)|(Hc & Hm & Halias)]].
  - discriminate.
  - rewrite Hreq, Hconda. unfold mingw_stage. rewrite Hreq, Hmingw.
    destruct (IS_CONDA P), (IS_MINGW P); reflexivity.
  - rewrite Hc, Hm. unfold mingw_stage. rewrite Halias. reflexivity.
Qed.

Lemma skipped_line_changes_nothing_witness :
  process_req mingw_platform (world_const 0) None None "foo --mingw=" state0
  = (inr tt, state0).
Proof.
  apply (skipped_line_changes_nothing mingw_platform (world_const 0)
           None None "foo --mingw=" state0).
  right. right. repeat split; reflexivity.
Defined.

(** ** MSYS2: a package that is there already *)

(** X13: on MSYS2, when pacman lists the first name, [python-] and the
    package name, with exit status zero and the word [installed], the line
    is settled by that one probe: the prefixed name is recorded, pacman is
    not asked to install anything and pip is not run. *)
Theorem mingw_already_installed (P : Platform) (W : World)
    (extra_index_url find_links : option (list string))
    (req : string) (r : Requirement) (s : state) :
  let package :=
    (MINGW_PACKAGE_PREFIX P ++ "-" ++ "python-" ++ name r)%string in
  let probe := mkInvocation (pacman_search ++ [package]) None in
  let answer := subprocess_result W (trace s) probe in
  IS_CONDA P = false ->
  IS_MINGW P = true ->
  passes_filters P W req = true ->
  mingw_requirement W (parse_req P W req) = Some r ->
  returncode answer = 0%Z ->
  contains "installed" (stdout answer) = true ->
  process_req P W extra_index_url find_links req s
  = (inr tt,
     mkState (os_environ s) (heap s) (trace s ++ [probe])
             (installed_packages s ++ [package]) (conda_pkgs s) (pip_pkgs s)).
Proof.
  intros package probe answer Hconda Hmingw Hpass Hreq Hrc Hout.
  unfold process_req. cbv zeta.
  unfold passes_filters in Hpass. apply andb_true_iff in Hpass as [Hplat Hpy].
  rewrite Hplat. cbn [negb]. apply negb_true_iff in Hpy. rewrite Hpy.
  rewrite Hconda, Hmingw.
  assert (Htry :
    mingw_try P W (mingw_packages (name r)) s
    = (inr true,
       mkState (os_environ s) (heap s) (trace s ++ [probe])
               (installed_packages s ++ [package]) (conda_pkgs s)
               (pip_pkgs s))).
  { destruct (mingw_packages_head (name r)) as [rest ->].
    cbn [mingw_try]. rewrite run_subprocess_inherit.
    fold package. fold probe. fold answer. rewrite Hrc, Hout. reflexivity. }
  assert (Hgo : forall r0, r0 = r ->
    ((mingw_try P W (mingw_packages (name r0)) ≫=
        (fun installed : bool =>
           if installed then mret None else mret (Some r0)))
     ≫= (fun r1 : option Requirement =>
           match r1 with
           | Some r2 =>
               pip_stage P W extra_index_url find_links (parse_req P W req) r2
           | None => mret tt
           end)) s
    = (inr tt,
       mkState (os_environ s) (heap s) (trace s ++ [probe])
               (installed_packages s ++ [package]) (conda_pkgs s)
               (pip_pkgs s))).
  { intros r0 ->. unfold mbind at 1 2, M_bind. rewrite Htry. reflexivity. }
  unfold mingw_requirement in Hreq. unfold mingw_stage.
  destruct (alias_for_mingw (parse_req P W req)) as [alias|].
  - destruct (String.eqb alias ""); [discriminate|].
    injection Hreq as Hreq. now apply Hgo.
  - rewrite Hreq. now apply Hgo.
Qed.

Lemma mingw_already_installed_witness :
  process_req mingw_platform world_installed None None "foo" state0
  = (inr tt,
     mkState ∅ []
       [mkInvocation
          ["pacman"; "--noconfirm"; "-Ss"; "mingw-w64-x86_64-python-foo"]
          None]
       ["mingw-w64-x86_64-python-foo"] [] []).
Proof.
  apply (mingw_already_installed mingw_platform world_installed None None
           "foo" (mkRequirement "foo" "foo") state0);
    vm_compute; reflexivity.
Defined.

(** ** The empty index URL on Conda *)

Section Raising.

Context (P : Platform) (W : World).
Context (find_links : option (list string)) (urls : list string).
Hypothesis on_conda : IS_CONDA P = true.

(** With the empty string as first URL, the Conda block raises at once. *)
Lemma conda_stage_raises (r : Requirement) (s : state) :
  conda_stage P W (Some ("" :: urls)) r s = (inl IndexError, s).
Proof. reflexivity. Qed.

(** A turn of the loop then raises when it has something to install, and
    does nothing otherwise. *)
Lemma process_req_raises (req : string) (s : state) :
  process_req P W (Some ("" :: urls)) find_links req s
  = if passes_filters P W req then
      match conda_requirement W (parse_req P W req) with
      | Some _ => (inl IndexError, s)
      | None => (inr tt, s)
      end
    else (inr tt, s).
Proof.
  unfold process_req, passes_filters, conda_requirement. cbv zeta.
  destruct (is_supported_platform P _ None); cbn [negb andb];
    [|reflexivity].
  destruct (match python_version _ with Some _ => _ | None => _ end);
    cbn [negb]; [reflexivity|].
  rewrite on_conda.
  destruct (alias_for_conda _) as [alias|].
  - destruct (String.eqb alias ""); [reflexivity|].
    apply conda_stage_raises.
  - destruct (require _); [apply conda_stage_raises|reflexivity].
Qed.

(** The loop raises at the first such line, from the state it started
    in. *)
Lemma for_process_req_raises (l : list string) (req : string)
    (r : Requirement) (s : state) :
  req ∈ l ->
  passes_filters P W req = true ->
  conda_requirement W (parse_req P W req) = Some r ->
  for_ l (process_req P W (Some ("" :: urls)) find_links) s
  = (inl IndexError, s).
Proof.
  intros Hin Hpass Hreq. induction l as [|req0 l IH]; [inversion Hin|].
  cbn [for_]. unfold mbind, M_bind. rewrite process_req_raises.
  destruct (passes_filters P W req0) eqn:Hpass0.
  - destruct (conda_requirement W (parse_req P W req0)) as [r0|] eqn:Hreq0;
      [reflexivity|].
    apply elem_of_cons in Hin as [->|Hin]; [congruence|]. now apply IH.
  - apply elem_of_cons in Hin as [->|Hin]; [congruence|]. now apply IH.
Qed.

End Raising.

(** X8: on Conda without [packaging], when the first of the extra index
    URLs is the empty string, a call that meets a line which passes the
    filters and has something to install raises [IndexError], from
    [extra[-1]], before any child process is run. *)
Theorem install_requirements_raises (P : Platform) (W : World)
    (urls : list string) (find_links : option (list string))
    (requires : requires_arg) (req : string) (r : Requirement) (s : state) :
  let out :=
    install_requirements P W (Some ("" :: urls)) find_links requires s in
  IS_CONDA P = true ->
  packaging_requirements W = None ->
  packaging_specifiers W = None ->
  req ∈ requires_set requires ->
  passes_filters P W req = true ->
  conda_requirement W (parse_req P W req) = Some r ->
  fst out = inl IndexError /\ trace (snd out) = trace s.
Proof.
  intros out Hconda _ _ Hin Hpass Hreq. subst out.
  rewrite install_requirements_run.
  rewrite (for_process_req_raises P W find_links urls Hconda
             (processing_order W requires) req r).
  - split; reflexivity.
  - now apply elem_of_processing_order.
  - exact Hpass.
  - exact Hreq.
Qed.

Lemma install_requirements_raises_witness :
  let out :=
    install_requirements conda_platform (world_const 0)
      (Some [""; "https://example.org/packages"]) None
      (RequiresList ["foo"]) state0 in
  fst out = inl IndexError /\ trace (snd out) = [].
Proof.
  apply (install_requirements_raises conda_platform (world_const 0)
           ["https://example.org/packages"] None (RequiresList ["foo"]) "foo"
           (mkRequirement "foo" "foo") state0).
  - reflexivity.
  - reflexivity.
  - reflexivity.
  - apply elem_of_list_to_set. repeat constructor.
  - vm_compute. reflexivity.
  - reflexivity.
Defined.

(** ** When every child process fails *)

(** A relation that holds of a call and of what follows every answer holds
    of the two in sequence. *)
Lemma always_bind_subprocess {B : Type} (R : state -> state -> Prop)
    (W : World) (args : list string) (env : option loc)
    (f : CompletedProcess -> M B) :
  (forall s1 s2 s3, R s1 s2 -> R s2 s3 -> R s1 s3) ->
  always R (subprocess_run W args env) ->
  (forall tr inv, always R (f (subprocess_result W tr inv))) ->
  always R (subprocess_run W args env ≫= f).
Proof.
  intros Htrans Hrun Hf s. specialize (Hrun s).
  unfold mbind, M_bind. unfold subprocess_run in *. cbn [snd] in *.
  eapply Htrans; [exact Hrun|apply Hf].
Qed.

Lemma keeps_installed_refl (s : state) : keeps_installed s s.
Proof. reflexivity. Qed.

Lemma keeps_installed_trans (s1 s2 s3 : state) :
  keeps_installed s1 s2 -> keeps_installed s2 s3 -> keeps_installed s1 s3.
Proof. unfold keeps_installed. congruence. Qed.

Section Failing.

Context (P : Platform) (W : World).
Context (extra_index_url find_links : option (list string)).
Hypothesis all_fail :
  forall tr inv, returncode (subprocess_result W tr inv) <> 0%Z.

Lemma fails (tr : list invocation) (inv : invocation) :
  (returncode (subprocess_result W tr inv) =? 0)%Z = false.
Proof. apply Z.eqb_neq, all_fail. Qed.

Ltac failing_step :=
  first
    [ apply always_ret; exact keeps_installed_refl
    | apply always_raise; exact keeps_installed_refl
    | apply always_get_state; exact keeps_installed_refl
    | apply always_bind_subprocess;
      [ exact keeps_installed_trans
      | intros ?; reflexivity
      | intros ? ?; rewrite ?fails; cbn [andb] ]
    | apply always_bind; [exact keeps_installed_trans| |intros ?] ].

Lemma failing_conda_lookup (r : Requirement) (extras args : list string) :
  always keeps_installed (conda_lookup P W r extras args).
Proof.
  revert args. induction extras as [|extra rest IH]; intros args;
    cbn [conda_lookup].
  - failing_step.
  - failing_step; [destruct (last extra); failing_step|].
    failing_step. apply IH.
Qed.

Lemma failing_conda_stage (r : Requirement) :
  always keeps_installed (conda_stage P W extra_index_url r).
Proof.
  unfold conda_stage. failing_step.
  - destruct (opt_truthy extra_index_url);
      [apply failing_conda_lookup|failing_step].
  - destruct (list_truthy _); [|intros s; reflexivity].
    failing_step. failing_step.
Qed.

Lemma failing_mingw_try (packages : list string) :
  always keeps_installed (mingw_try P W packages).
Proof.
  induction packages as [|package_name rest IH]; cbn [mingw_try].
  - failing_step.
  - failing_step.
    destruct (returncode _ =? 1)%Z; [exact IH|].
    failing_step. exact IH.
Qed.

Lemma failing_mingw_stage (d : directive) :
  always keeps_installed (mingw_stage P W d).
Proof.
  unfold mingw_stage.
  assert (Htry : forall r,
    always keeps_installed
      (mingw_try P W (mingw_packages (name r)) ≫=
       (fun installed : bool =>
          if installed then mret None else mret (Some r)))).
  { intros r. failing_step; [apply failing_mingw_try|].
    destruct x; failing_step. }
  destruct (alias_for_mingw d) as [alias|].
  - destruct (String.eqb alias ""); [failing_step|apply Htry].
  - destruct (require d); [apply Htry|failing_step].
Qed.

Lemma failing_pip_stage (d : directive) (r : Requirement) :
  always keeps_installed (pip_stage P W extra_index_url find_links d r).
Proof.
  intros s. rewrite pip_stage_spec. unfold pip_stage_result. cbv zeta.
  rewrite !fails. unfold keeps_installed. cbn [snd].
  destruct (list_truthy _); [|reflexivity].
  destruct (negb (IS_FINAL_VERSION P) && negb (pre_release d));
    cbn [installed_packages]; [apply app_nil_r|reflexivity].
Qed.

Lemma failing_process_req (req : string) :
  always keeps_installed (process_req P W extra_index_url find_links req).
Proof.
  unfold process_req. cbv zeta.
  destruct (negb (is_supported_platform P _ None)); [failing_step|].
  destruct (match python_version _ with Some _ => _ | None => _ end);
    [failing_step|].
  destruct (IS_CONDA P).
  - destruct (alias_for_conda _) as [alias|].
    + destruct (String.eqb alias ""); [failing_step|].
      apply failing_conda_stage.
    + destruct (require _); [|failing_step]. apply failing_conda_stage.
  - failing_step.
    + destruct (IS_MINGW P); [apply failing_mingw_stage|failing_step].
    + destruct x; [apply failing_pip_stage|failing_step].
Qed.

Lemma failing_pip_batch :
  always keeps_installed (pip_batch P W extra_index_url find_links).
Proof.
  intros s. rewrite pip_batch_spec. unfold pip_batch_result. cbv zeta.
  rewrite fails. unfold keeps_installed. cbn [snd].
  destruct (list_truthy _); [|reflexivity].
  cbn [installed_packages]. apply app_nil_r.
Qed.

Lemma failing_conda_batch : always keeps_installed (conda_batch P W).
Proof.
  unfold conda_batch. failing_step; [failing_step|].
  destruct (list_truthy _); [|failing_step].
  failing_step. failing_step.
Qed.

Lemma failing_install_requirements (requires : requires_arg) (s : state) :
  installed_packages
    (snd (install_requirements P W extra_index_url find_links requires s))
  = [].
Proof.
  change (@nil string) with (installed_packages (snd (reset_lists s))).
  revert s.
  unfold install_requirements. intros s.
  change ((reset_lists;; ?m) s) with (m (snd (reset_lists s))).
  generalize (snd (reset_lists s)).
  change (forall s0, installed_packages (snd (?m s0)) = installed_packages s0)
    with (always keeps_installed m).
  failing_step.
  { apply always_for_;
      [exact keeps_installed_refl|exact keeps_installed_trans|].
    apply failing_process_req. }
  failing_step; [apply failing_pip_batch|].
  failing_step; [apply failing_conda_batch|].
  failing_step; failing_step.
Qed.

End Failing.

(** X9: when every child process exits with a status other than zero, no
    identifier is recorded: [installed_packages] ends empty, and the list
    returned, when one is returned, is empty. *)
Theorem nothing_installed_when_all_fail (P : Platform) (W : World)
    (extra_index_url find_links : option (list string))
    (requires : requires_arg) (s : state) :
  (forall tr inv, returncode (subprocess_result W tr inv) <> 0%Z) ->
  let out := install_requirements P W extra_index_url find_links requires s in
  installed_packages (snd out) = []
  /\ forall result, fst out = inr result -> result = [].
Proof.
  intros Hfail out.
  pose proof (failing_install_requirements P W extra_index_url find_links
                Hfail requires s) as Hnil.
  fold out in Hnil. split; [exact Hnil|].
  intros result Hret. subst out.
  rewrite install_requirements_run in Hret, Hnil.
  destruct (for_ _ _ _) as [[e|x] s1]; [discriminate|].
  destruct (conda_batch _ _ _) as [[e|y] s3]; [discriminate|].
  cbn [fst snd] in *. injection Hret as <-. exact Hnil.
Qed.

Lemma nothing_installed_when_all_fail_witness :
  installed_packages
    (snd (install_requirements mingw_platform (world_const 2) None None
            (RequiresList ["foo"; "bar --no-deps"]) state0)) = [].
Proof.
  refine (proj1 (nothing_installed_when_all_fail mingw_platform
                   (world_const 2) None None
                   (RequiresList ["foo"; "bar --no-deps"]) state0 _)).
  intros tr inv. discriminate.
Defined.

(** ** One backend for a call *)

(** From the state in which the three lists are empty, the call satisfies a
    relation that holds of every turn of the loop and of the two batched
    installs. *)
Lemma install_requirements_related (P : Platform) (W : World)
    (extra_index_url find_links : option (list string))
    (R : state -> state -> Prop) (requires : requires_arg) (s : state) :
  (forall s1, R s1 s1) ->
  (forall s1 s2 s3, R s1 s2 -> R s2 s3 -> R s1 s3) ->
  (forall req, always R (process_req P W extra_index_url find_links req)) ->
  always R (pip_batch P W extra_index_url find_links) ->
  always R (conda_batch P W) ->
  R (snd (reset_lists s))
    (snd (install_requirements P W extra_index_url find_links requires s)).
Proof.
  intros Hrefl Htrans Hreq Hpip Hconda.
  unfold install_requirements.
  change ((reset_lists;; ?m) s) with (m (snd (reset_lists s))).
  generalize (snd (reset_lists s)).
  change (forall s0, R s0 (snd (?m s0))) with (always R m).
  apply always_bind; [exact Htrans| |intros _].
  { apply always_for_; assumption. }
  apply always_bind; [exact Htrans|exact Hpip|intros _].
  apply always_bind; [exact Htrans|exact Hconda|intros _].
  apply always_bind; [exact Htrans|now apply always_get_state|intros s1].
  now apply always_ret.
Qed.

Section CondaOnly.

Context (P : Platform) (W : World).
Context (extra_index_url find_links : option (list string)).

Lemma conda_only_refl (s : state) : conda_only P s s.
Proof. intros Hnil. split; [apply extends_refl|exact Hnil]. Qed.

Lemma conda_only_trans (s1 s2 s3 : state) :
  conda_only P s1 s2 -> conda_only P s2 s3 -> conda_only P s1 s3.
Proof.
  intros H12 H23 Hnil. destruct (H12 Hnil) as [He12 Hnil2].
  destruct (H23 Hnil2) as [He23 Hnil3].
  split; [eapply extends_trans; eassumption|exact Hnil3].
Qed.

Lemma conda_only_subprocess (args : list string) :
  (exists rest, args = CONDA_EXE P :: rest) ->
  always (conda_only P) (subprocess_run W args None).
Proof.
  intros Hargs s Hnil. split; [|exact Hnil].
  apply (extends_intro _ _ _ [mkInvocation args None] []); simpl;
    try reflexivity; [|now rewrite app_nil_r].
  constructor; [|constructor]. split; [reflexivity|exact Hargs].
Qed.

Lemma conda_only_installed_extend (l : list string) :
  always (conda_only P) (installed_extend l).
Proof.
  intros s Hnil. split; [|exact Hnil].
  apply (extends_intro _ _ _ [] l); simpl; try reflexivity;
    [now rewrite app_nil_r|constructor].
Qed.

Lemma conda_only_conda_pkgs_append (p : string) :
  always (conda_only P) (conda_pkgs_append p).
Proof.
  intros s Hnil. split; [|exact Hnil].
  apply (extends_intro _ _ _ [] []); simpl; try reflexivity;
    [now rewrite app_nil_r|constructor|now rewrite app_nil_r].
Qed.

Ltac conda_step :=
  first
    [ apply always_ret; exact conda_only_refl
    | apply always_raise; exact conda_only_refl
    | apply always_get_state; exact conda_only_refl
    | apply conda_only_subprocess; eexists; reflexivity
    | apply conda_only_installed_extend
    | apply conda_only_conda_pkgs_append
    | apply always_bind; [exact conda_only_trans| |intros ?] ].

Lemma conda_only_conda_lookup (r : Requirement) (extras args : list string) :
  always (conda_only P) (conda_lookup P W r extras args).
Proof.
  revert args. induction extras as [|extra rest IH]; intros args;
    cbn [conda_lookup].
  - conda_step.
  - conda_step; [destruct (last extra); conda_step|].
    conda_step; [conda_step|]. apply IH.
Qed.

Lemma conda_only_conda_stage (r : Requirement) :
  always (conda_only P) (conda_stage P W extra_index_url r).
Proof.
  unfold conda_stage. conda_step.
  - destruct (opt_truthy extra_index_url);
      [apply conda_only_conda_lookup|conda_step].
  - destruct (list_truthy _); [|conda_step].
    conda_step; [conda_step|].
    destruct (returncode _ =? 0)%Z; conda_step.
Qed.

Lemma conda_only_process_req (req : string) :
  IS_CONDA P = true ->
  always (conda_only P) (process_req P W extra_index_url find_links req).
Proof.
  intros Hconda. unfold process_req. cbv zeta.
  destruct (negb (is_supported_platform P _ None)); [conda_step|].
  destruct (match python_version _ with Some _ => _ | None => _ end);
    [conda_step|].
  rewrite Hconda.
  destruct (alias_for_conda _) as [alias|].
  - destruct (String.eqb alias ""); [conda_step|].
    apply conda_only_conda_stage.
  - destruct (require _); [|conda_step]. apply conda_only_conda_stage.
Qed.

Lemma conda_only_pip_batch :
  always (conda_only P) (pip_batch P W extra_index_url find_links).
Proof.
  intros s Hnil. rewrite pip_batch_spec. unfold pip_batch_result.
  rewrite Hnil. cbn [list_truthy snd].
  split; [apply extends_refl|exact Hnil].
Qed.

Lemma conda_only_conda_batch : always (conda_only P) (conda_batch P W).
Proof.
  unfold conda_batch. conda_step; [conda_step|].
  destruct (list_truthy _); [|conda_step].
  conda_step; [conda_step|].
  destruct (returncode _ =? 0)%Z; conda_step.
Qed.

End CondaOnly.

(** X10: on a Conda installation every child process of a call is conda
    itself, run with the environment of the process: pip and pacman are
    never run, whatever the lines and whatever conda answers. *)
Theorem conda_backend_exclusive (P : Platform) (W : World)
    (extra_index_url find_links : option (list string))
    (requires : requires_arg) (s : state) :
  IS_CONDA P = true ->
  exists invs,
    trace (snd (install_requirements P W extra_index_url find_links
                  requires s))
    = trace s ++ invs
    /\ Forall (is_conda_call P) invs.
Proof.
  intros Hconda.
  destruct (install_requirements_related P W extra_index_url find_links
              (conda_only P) requires s) as [(_ & Ht & _) _].
  - apply conda_only_refl.
  - apply conda_only_trans.
  - intros req. now apply conda_only_process_req.
  - apply conda_only_pip_batch.
  - apply conda_only_conda_batch.
  - reflexivity.
  - exact Ht.
Qed.

Lemma conda_backend_exclusive_witness :
  exists invs,
    trace (snd (install_requirements conda_platform (world_const 0)
                  None None (RequiresList ["foo --no-deps"]) state0))
    = trace state0 ++ invs
    /\ Forall (is_conda_call conda_platform) invs.
Proof.
  apply (conda_backend_exclusive conda_platform (world_const 0) None None
           (RequiresList ["foo --no-deps"]) state0).
  reflexivity.
Defined.

Section PipOnly.

Context (P : Platform) (W : World).
Context (extra_index_url find_links : option (list string)).

Lemma pip_only_refl (s : state) : pip_or_pacman_only P s s.
Proof. intros Hnil. split; [apply extends_refl|exact Hnil]. Qed.

Lemma pip_only_trans (s1 s2 s3 : state) :
  pip_or_pacman_only P s1 s2 -> pip_or_pacman_only P s2 s3 ->
  pip_or_pacman_only P s1 s3.
Proof.
  intros H12 H23 Hnil. destruct (H12 Hnil) as [He12 Hnil2].
  destruct (H23 Hnil2) as [He23 Hnil3].
  split; [eapply extends_trans; eassumption|exact Hnil3].
Qed.

Lemma pip_only_pacman (args : list string) :
  IS_MINGW P = true ->
  (exists rest, args = "pacman" :: rest) ->
  always (pip_or_pacman_only P) (subprocess_run W args None).
Proof.
  intros Hmingw Hargs s Hnil. split; [|exact Hnil].
  apply (extends_intro _ _ _ [mkInvocation args None] []); simpl;
    try reflexivity; [|now rewrite app_nil_r].
  constructor; [|constructor]. right.
  split; [exact Hmingw|]. split; [reflexivity|exact Hargs].
Qed.

Lemma pip_only_installed_extend (l : list string) :
  always (pip_or_pacman_only P) (installed_extend l).
Proof.
  intros s Hnil. split; [|exact Hnil].
  apply (extends_intro _ _ _ [] l); simpl; try reflexivity;
    [now rewrite app_nil_r|constructor].
Qed.

Ltac pip_step Hmingw :=
  first
    [ apply always_ret; exact pip_only_refl
    | apply always_get_state; exact pip_only_refl
    | apply (pip_only_pacman _ Hmingw); eexists; reflexivity
    | apply pip_only_installed_extend
    | apply always_bind; [exact pip_only_trans| |intros ?] ].

Lemma pip_only_mingw_try (packages : list string) :
  IS_MINGW P = true ->
  always (pip_or_pacman_only P) (mingw_try P W packages).
Proof.
  intros Hmingw.
  induction packages as [|package_name rest IH]; cbn [mingw_try].
  - pip_step Hmingw.
  - pip_step Hmingw; [pip_step Hmingw|].
    destruct (returncode _ =? 1)%Z; [exact IH|].
    destruct (_ && _).
    + pip_step Hmingw; pip_step Hmingw.
    + pip_step Hmingw; [pip_step Hmingw|].
      destruct (returncode _ =? 0)%Z;
        [pip_step Hmingw; pip_step Hmingw|exact IH].
Qed.

Lemma pip_only_mingw_stage (d : directive) :
  IS_MINGW P = true ->
  always (pip_or_pacman_only P) (mingw_stage P W d).
Proof.
  intros Hmingw. unfold mingw_stage.
  assert (Htry : forall r,
    always (pip_or_pacman_only P)
      (mingw_try P W (mingw_packages (name r)) ≫=
       (fun installed : bool =>
          if installed then mret None else mret (Some r)))).
  { intros r. pip_step Hmingw; [now apply pip_only_mingw_try|].
    destruct x; pip_step Hmingw. }
  destruct (alias_for_mingw d) as [alias|].
  - destruct (String.eqb alias ""); [pip_step Hmingw|apply Htry].
  - destruct (require d); [apply Htry|pip_step Hmingw].
Qed.

Lemma pip_call_single (d : directive) (r : Requirement)
    (e : gmap string string) :
  is_pip_call P
    (mkInvocation (pip_single_args P extra_index_url find_links d r)
                  (Some e)).
Proof. split; [discriminate|]. unfold pip_single_args. eauto. Qed.

Lemma pip_only_pip_stage (d : directive) (r : Requirement) :
  always (pip_or_pacman_only P)
         (pip_stage P W extra_index_url find_links d r).
Proof.
  intros s Hnil. rewrite pip_stage_spec. unfold pip_stage_result. cbv zeta.
  cbn [snd].
  destruct (list_truthy _);
    [destruct (returncode _ =? 0)%Z;
     [|destruct (negb (IS_FINAL_VERSION P) && negb (pre_release d))]|];
    (split; [|exact Hnil]);
    (eapply extends_intro; simpl;
     [ reflexivity
     | first [reflexivity | symmetry; apply app_nil_r]
     | repeat (constructor; [left; apply pip_call_single|]); constructor
     | first [reflexivity | symmetry; apply app_nil_r] ]).
Qed.

Lemma pip_only_process_req (req : string) :
  IS_CONDA P = false ->
  always (pip_or_pacman_only P)
         (process_req P W extra_index_url find_links req).
Proof.
  intros Hconda. unfold process_req. cbv zeta.
  destruct (negb (is_supported_platform P _ None));
    [apply always_ret; exact pip_only_refl|].
  destruct (match python_version _ with Some _ => _ | None => _ end);
    [apply always_ret; exact pip_only_refl|].
  rewrite Hconda.
  apply always_bind; [exact pip_only_trans| |intros [r|]].
  - destruct (IS_MINGW P) eqn:Hmingw;
      [now apply pip_only_mingw_stage|apply always_ret; exact pip_only_refl].
  - apply pip_only_pip_stage.
  - apply always_ret; exact pip_only_refl.
Qed.

Lemma pip_only_pip_batch :
  always (pip_or_pacman_only P) (pip_batch P W extra_index_url find_links).
Proof.
  intros s Hnil. rewrite pip_batch_spec. unfold pip_batch_result. cbv zeta.
  cbn [snd]. destruct (list_truthy _); [|now apply pip_only_refl].
  split; [|exact Hnil].
  eapply extends_intro; simpl; [reflexivity|reflexivity| |reflexivity].
  constructor; [|constructor]. left. split; [discriminate|].
  unfold pip_batch_args. eauto.
Qed.

Lemma pip_only_conda_batch : always (pip_or_pacman_only P) (conda_batch P W).
Proof.
  intros s Hnil. unfold conda_batch. rewrite run_get_state, Hnil.
  now apply pip_only_refl.
Qed.

End PipOnly.

(** X11: off Conda every child process of a call is pip, run with an
    environment of its own, or, on MSYS2 only, pacman run with the
    environment of the process; conda is never run. *)
Theorem pip_backend_exclusive (P : Platform) (W : World)
    (extra_index_url find_links : option (list string))
    (requires : requires_arg) (s : state) :
  IS_CONDA P = false ->
  exists invs,
    trace (snd (install_requirements P W extra_index_url find_links
                  requires s))
    = trace s ++ invs
    /\ Forall (fun inv =>
                is_pip_call P inv
                \/ (IS_MINGW P = true /\ is_pacman_call inv)) invs.
Proof.
  intros Hconda.
  destruct (install_requirements_related P W extra_index_url find_links
              (pip_or_pacman_only P) requires s) as [(_ & Ht & _) _].
  - apply pip_only_refl.
  - apply pip_only_trans.
  - intros req. now apply pip_only_process_req.
  - apply pip_only_pip_batch.
  - apply pip_only_conda_batch.
  - reflexivity.
  - exact Ht.
Qed.

Lemma pip_backend_exclusive_witness :
  exists invs,
    trace (snd (install_requirements linux_platform (world_const 0)
                  None None (RequiresList ["foo --no-deps"]) state0))
    = trace state0 ++ invs
    /\ Forall (fun inv =>
                is_pip_call linux_platform inv
                \/ (IS_MINGW linux_platform = true /\ is_pacman_call inv))
              invs.
Proof.
  apply (pip_backend_exclusive linux_platform (world_const 0) None None
           (RequiresList ["foo --no-deps"]) state0).
  reflexivity.
Defined.

(** ** Conda without an index to search *)

Lemma omap_cons_app {A B : Type} (f : A -> option B) (x : A) (l : list A) :
  omap f (x :: l) = option_list (f x) ++ omap f l.
Proof. cbn. destruct (f x); reflexivity. Qed.

Section CondaQueue.

Context (P : Platform) (W : World).
Context (extra_index_url find_links : option (list string)).
Hypothesis on_conda : IS_CONDA P = true.
Hypothesis no_index : opt_truthy extra_index_url = false.

Lemma conda_process_req (req : string) E h tr ins cp pp :
  process_req P W extra_index_url find_links req (mkState E h tr ins cp pp)
  = (inr tt,
     mkState E h tr ins
       (cp ++ option_list (conda_queued P W req)) pp).
Proof.
  unfold process_req, conda_queued, passes_filters, conda_requirement.
  cbv zeta.
  destruct (is_supported_platform P _ None);
    [|cbn; now rewrite app_nil_r].
  cbn [negb andb].
  destruct (match python_version _ with Some _ => _ | None => _ end);
    [cbn; now rewrite app_nil_r|].
  cbn [negb]. rewrite on_conda.
  assert (Hstage : forall r,
    conda_stage P W extra_index_url r (mkState E h tr ins cp pp)
    = (inr tt, mkState E h tr ins (cp ++ [__str__ r]) pp)).
  { intros r. unfold conda_stage. rewrite no_index. reflexivity. }
  destruct (alias_for_conda _) as [alias|].
  - destruct (String.eqb alias ""); [cbn; now rewrite app_nil_r|].
    apply Hstage.
  - destruct (require _) as [r|]; [apply Hstage|cbn; now rewrite app_nil_r].
Qed.

Lemma conda_loop (l : list string) E h tr ins cp pp :
  for_ l (process_req P W extra_index_url find_links)
       (mkState E h tr ins cp pp)
  = (inr tt, mkState E h tr ins (cp ++ omap (conda_queued P W) l) pp).
Proof.
  revert cp. induction l as [|req l IH]; intros cp.
  - change (omap (conda_queued P W) []) with (@nil string).
    rewrite app_nil_r. reflexivity.
  - cbn [for_]. unfold mbind, M_bind. rewrite conda_process_req, IH.
    rewrite omap_cons_app, app_assoc. reflexivity.
Qed.

End CondaQueue.

(** X20: on Conda, when there is no extra index URL, the call runs no
    search and nothing during the loop.  The lines that pass the filters
    and have something to install are queued in the order in which they are
    met, and installed by one [conda install] from conda-forge, when there
    is at least one; the call returns all of them when that command exits
    with zero and none of them otherwise. *)
Theorem conda_single_batch (P : Platform) (W : World)
    (extra_index_url find_links : option (list string))
    (requires : requires_arg) (s : state) :
  let names := omap (conda_queued P W) (processing_order W requires) in
  let call :=
    mkInvocation
      (conda_install P ++ ["--override-channels"; "-c"; "conda-forge"]
       ++ names) None in
  let out := install_requirements P W extra_index_url find_links requires s in
  IS_CONDA P = true ->
  opt_truthy extra_index_url = false ->
  trace (snd out) = trace s ++ (if list_truthy names then [call] else [])
  /\ fst out
     = inr (if list_truthy names
               && (returncode (subprocess_result W (trace s) call) =? 0)%Z
            then names else []).
Proof.
  intros names call out Hconda Hno. subst out.
  rewrite install_requirements_run.
  rewrite (conda_loop P W extra_index_url find_links Hconda Hno).
  cbn [app]. fold names.
  unfold pip_batch_result. cbn [pip_pkgs list_truthy].
  unfold conda_batch. rewrite run_get_state. cbn [conda_pkgs].
  destruct (list_truthy names) eqn:Hnames.
  - rewrite run_subprocess_inherit. cbn [trace]. fold call.
    destruct (returncode _ =? 0)%Z; cbn; split; reflexivity.
  - cbn. rewrite app_nil_r. split; reflexivity.
Qed.

Lemma conda_single_batch_witness :
  fst (install_requirements conda_platform (world_const 0) None None
         (RequiresList ["foo --conda=py-foo"]) state0)
  = inr ["py-foo"].
Proof.
  apply (conda_single_batch conda_platform (world_const 0) None None
           (RequiresList ["foo --conda=py-foo"]) state0); reflexivity.
Defined.


(** ** [cx_freeze_status] *)

(** The version that one [__version__] line gives. *)
Lemma version_from_line (line value : string) (rest : list string) :
  startswith "__version__" line = true ->
  split "=" line !! 1%nat = Some value ->
  let v := remove_char quote_double (strip value) in
  version_from_lines (line :: rest)
  = inr (if has_char "-" v
         then join "" (rsplit_once "." (replace_char "-" "." v))
         else v).
Proof.
  intros Hline Hvalue v. cbn [version_from_lines].
  now rewrite Hline, Hvalue.
Qed.

(** X16: the version read from the source file has no double quote and no
    hyphen in it. *)
Theorem source_version_clean (lines : list string) (version : string) :
  version_from_lines lines = inr version ->
  has_char "-" version = false /\ has_char quote_double version = false.
Proof.
  induction lines as [|line rest IH]; cbn [version_from_lines].
  - intros [= <-]. split; reflexivity.
  - destruct (startswith "__version__" line); [|exact IH].
    destruct (split "=" line !! 1%nat) as [value|]; [|discriminate].
    set (v := remove_char quote_double (strip value)).
    assert (Hquote : has_char quote_double v = false)
      by apply has_char_remove_same.
    destruct (has_char "-" v) eqn:Hhyphen.
    + intros [= <-].
      set (w := replace_char "-" "." v).
      assert (Hw1 : has_char "-" w = false)
        by (apply has_char_replace_same; discriminate).
      assert (Hw2 : has_char quote_double w = false)
        by (apply has_char_replace_other; [discriminate|exact Hquote]).
      destruct (join_rsplit_once "." w) as [[_ ->]|(x & y & Hxy & _ & ->)];
        [split; assumption|].
      rewrite Hxy, has_char_app in Hw1, Hw2. cbn [has_char] in Hw1, Hw2.
      apply orb_false_iff in Hw1 as [Hx1 Hy1].
      apply orb_false_iff in Hy1 as [_ Hy1].
      apply orb_false_iff in Hw2 as [Hx2 Hy2].
      apply orb_false_iff in Hy2 as [_ Hy2].
      rewrite !has_char_app, Hx1, Hy1, Hx2, Hy2. split; reflexivity.
    + intros [= <-]. split; assumption.
Qed.

Lemma source_version_clean_witness :
  has_char "-" "7.3.0.dev1" = false.
Proof.
  apply (source_version_clean
           ["import sys"; "__version__ = 7.3.0-dev.1"] "7.3.0.dev1").
  reflexivity.
Defined.

(** X17: the first line that starts with [__version__] decides alone: the
    lines before it and every line after it, further [__version__] lines
    included, do not count; the lines before it alone give the empty
    version. *)
Theorem first_version_line_decides (pre post : list string) (line : string) :
  Forall (fun l => startswith "__version__" l = false) pre ->
  startswith "__version__" line = true ->
  version_from_lines (pre ++ line :: post) = version_from_lines [line]
  /\ version_from_lines pre = inr "".
Proof.
  intros Hpre Hline. induction Hpre as [|l pre Hl _ IH].
  - split; [|reflexivity].
    cbn [app version_from_lines]. now rewrite Hline.
  - cbn [app version_from_lines]. rewrite Hl. exact IH.
Qed.

(** A file with two [__version__] lines: the first one is read. *)
Lemma first_version_line_decides_witness :
  version_from_lines
    ["import sys"; "__version__ = 7.3.0"; "__version__ = 1"]
  = version_from_lines ["__version__ = 7.3.0"]
  /\ version_from_lines ["import sys"] = inr "".
Proof.
  apply (first_version_line_decides
           ["import sys"] ["__version__ = 1"] "__version__ = 7.3.0").
  - repeat constructor.
  - reflexivity.
Defined.

(** X18: the loop over the lines read from [cx_Freeze/__init__.py] raises
    [IndexError] exactly when the first line that starts with
    [__version__] has no [=]; for every other list of lines it gives a
    version. *)
Theorem version_from_lines_raises (lines : list string) :
  let no_value :=
    exists pre line post,
      lines = pre ++ line :: post
      /\ Forall (fun l => startswith "__version__" l = false) pre
      /\ startswith "__version__" line = true
      /\ has_char "=" line = false in
  (version_from_lines lines = inl IndexError <-> no_value)
  /\ ((exists version, version_from_lines lines = inr version)
      <-> ~ no_value).
Proof.
  cbv zeta.
  assert (Hraise : version_from_lines lines = inl IndexError
    <-> exists pre line post,
          lines = pre ++ line :: post
          /\ Forall (fun l => startswith "__version__" l = false) pre
          /\ startswith "__version__" line = true
          /\ has_char "=" line = false).
  { induction lines as [|l rest IH]; cbn [version_from_lines].
    - split; [discriminate|]. intros (pre & line & post & H & _).
      destruct pre; discriminate.
    - destruct (startswith "__version__" l) eqn:Hl.
      + destruct (split "=" l !! 1%nat) as [value|] eqn:Hvalue.
        * split; [discriminate|].
          intros (pre & line & post & H & Hpre & Hline & Hno).
          destruct pre as [|l' pre].
          -- injection H as -> ->. apply split_second_None in Hno.
             congruence.
          -- injection H as -> ->. inversion Hpre; subst. congruence.
        * split; [|reflexivity]. intros _. exists [], l, rest.
          repeat split; [constructor|assumption|].
          now apply split_second_None.
      + rewrite IH. split.
        * intros (pre & line & post & -> & Hpre & Hline & Hno).
          exists (l :: pre), line, post. repeat split; auto.
        * intros (pre & line & post & H & Hpre & Hline & Hno).
          destruct pre as [|l' pre].
          -- injection H as -> ->. congruence.
          -- injection H as -> ->. inversion Hpre; subst.
             exists pre, line, post. repeat split; auto. }
  assert (Hcases : version_from_lines lines = inl IndexError
                   \/ exists version, version_from_lines lines = inr version).
  { clear Hraise. induction lines as [|l rest IH]; cbn [version_from_lines].
    - right. eauto.
    - destruct (startswith "__version__" l); [|exact IH].
      destruct (split "=" l !! 1%nat); [right; eauto|now left]. }
  split; [exact Hraise|]. rewrite <- Hraise. split.
  - intros [version Hv] Hr. congruence.
  - intros Hnot. destruct Hcases as [Hr|Hv]; [contradiction|exact Hv].
Qed.

(** X19: in a version with a hyphen, every hyphen becomes a dot and the
    last dot is then dropped: [7.3.0-dev.1] is read as [7.3.0.dev1]. *)
Theorem source_version_hyphen (line value : string) (rest : list string) :
  let v := remove_char quote_double (strip value) in
  startswith "__version__" line = true ->
  split "=" line !! 1%nat = Some value ->
  has_char "-" v = true ->
  exists x y,
    replace_char "-" "." v = (x ++ String "." y)%string
    /\ has_char "." y = false
    /\ version_from_lines (line :: rest) = inr (x ++ y)%string.
Proof.
  intros v Hline Hvalue Hhyphen.
  rewrite (version_from_line line value rest Hline Hvalue). fold v.
  rewrite Hhyphen.
  destruct (join_rsplit_once "." (replace_char "-" "." v))
    as [[Hno _]|(x & y & Hxy & Hy & ->)].
  - exfalso. clear -Hhyphen Hno. induction v as [|c v IH]; [discriminate|].
    cbn [has_char replace_char] in *.
    destruct (Ascii.eqb c "-") eqn:Hc; [discriminate|].
    apply orb_false_iff in Hno as [_ Hno]. auto.
  - exists x, y. auto.
Qed.

Lemma source_version_hyphen_witness :
  exists x y,
    replace_char "-" "."
      (remove_char quote_double (strip " 7.3.0-dev.1"))
    = (x ++ String "." y)%string
    /\ has_char "." y = false
    /\ version_from_lines ["__version__ = 7.3.0-dev.1"] = inr (x ++ y)%string.
Proof.
  apply (source_version_hyphen "__version__ = 7.3.0-dev.1" " 7.3.0-dev.1" []);
    reflexivity.
Defined.

End BuildTestMoreFacts.
